(** * REANA-Workflow-Engine-yadage: the command line supervisor

    A shallow embedding of [reana_workflow_engine_yadage/cli.py] and the
    properties of its run-lifecycle supervisor: option path resolution,
    initial-data merging, and the status events a run publishes. *)

From Stdlib Require Import ZArith String Ascii List Lia.
From stdpp Require Import base option list gmap strings fin_maps.

Local Open Scope Z_scope.
Local Open Scope string_scope.

(** ** Python values and the few built-ins the module relies on *)

Module Py.

(** A raised exception object: its class name and [str(e)]. *)
Record exn := Exn { exn_class : string; exn_str : string }.

(** Outcome of a call: a value; a raised exception that is an instance of
    [Exception], which a clause [except Exception] catches; or a raised
    exception that is not ([KeyboardInterrupt], [SystemExit],
    [GeneratorExit] and other direct descendants of [BaseException]), which
    such a clause lets through. *)
Inductive result (A : Type) : Type :=
| Ok (a : A)
| Raise (e : exn)
| Escape (e : exn).
Arguments Ok {A} a.
Arguments Raise {A} e.
Arguments Escape {A} e.

#[global] Instance result_ret : MRet result := @Ok.
#[global] Instance result_bind : MBind result := fun A B f r =>
  match r with
  | Ok a => f a
  | Raise e => Raise e
  | Escape e => Escape e
  end.

Definition is_ok {A} (r : result A) : bool :=
  match r with Ok _ => true | Raise _ | Escape _ => false end.

(** Values decoded by [json.loads] / [yaml.safe_load].  An object keeps its
    distinct keys in insertion order, as a Python [dict] does. *)
#[warnings="-register-all"]
Inductive json : Type :=
| JNull
| JBool (b : bool)
| JNum (z : Z)
| JStr (s : string)
| JList (l : list json)
| JObj (kv : list (string * json)).

(** The name Python prints for the type of a decoded value. *)
Definition type_name (v : json) : string :=
  match v with
  | JNull => "NoneType"
  | JBool _ => "bool"
  | JNum _ => "int"
  | JStr _ => "str"
  | JList _ => "list"
  | JObj _ => "dict"
  end.

(** A Python [dict] with string keys. *)
Abbreviation dict := (gmap string json).

(** [d.update(other)]: every binding of [other] is written into [d]. *)
Definition dict_update (d other : dict) : dict := other ∪ d.

(** [dict(pairs)]: bindings written left to right, later ones win. *)
Definition dict_of_pairs (kv : list (string * json)) : dict :=
  fold_left (fun d p => <[p.1 := p.2]> d) kv ∅.

(** [d[k]]: raises [KeyError(k)], whose [str] is the quoted key. *)
Definition getitem (d : dict) (k : string) : result json :=
  match d !! k with
  | Some v => Ok v
  | None => Raise (Exn "KeyError" ("'" +:+ k +:+ "'"))
  end.

(** [k in d] *)
Definition contains (d : dict) (k : string) : bool :=
  bool_decide (is_Some (d !! k)).

(** [s.startswith(p)] *)
Definition startswith (s p : string) : bool := String.prefix p s.

(** [s.endswith("/")] *)
Fixpoint endswith_sep (s : string) : bool :=
  match s with
  | EmptyString => false
  | String c EmptyString => Ascii.eqb c "/"
  | String _ rest => endswith_sep rest
  end.

(** A Python [str] is held as its UTF-8 encoding.  The number of bytes of
    the character whose encoding starts with the byte [c]. *)
Definition utf8_width (c : ascii) : nat :=
  let n := nat_of_ascii c in
  if (n <? 192)%nat then 1%nat
  else if (n <? 224)%nat then 2%nat
  else if (n <? 240)%nat then 3%nat
  else 4%nat.

(** The characters of a string, each as a string: [k] bytes of the
    character [cur] are still to come. *)
Fixpoint letters_from (k : nat) (cur : string) (s : string) : list string :=
  match s with
  | EmptyString => match cur with EmptyString => [] | _ => [cur] end
  | String c rest =>
      match k with
      | O =>
          match utf8_width c with
          | S O => String c EmptyString :: letters_from 0 EmptyString rest
          | w => letters_from (Nat.pred w) (String c EmptyString) rest
          end
      | S k' =>
          let cur' := cur +:+ String c EmptyString in
          match k' with
          | O => cur' :: letters_from 0 EmptyString rest
          | _ => letters_from k' cur' rest
          end
      end
  end.

Definition letters (s : string) : list string := letters_from 0 EmptyString s.

(** [s[n:]] on bytes. *)
Fixpoint drop_bytes (n : nat) (s : string) : string :=
  match n, s with
  | O, _ => s
  | S n', String _ rest => drop_bytes n' rest
  | S _, EmptyString => EmptyString
  end.

(** [s[1:]]: the string without its first character. *)
Definition slice_from_1 (s : string) : string :=
  match s with
  | EmptyString => EmptyString
  | String c _ => drop_bytes (utf8_width c) s
  end.

(** ["{0}/{1}".format(a, b)] where [b] may be [None]. *)
Definition format_slash (a : string) (b : option string) : string :=
  a +:+ "/" +:+ default "None" b.

(** [os.path.join(a, b)] of [posixpath]: an absolute second component
    replaces the first; otherwise the two are concatenated with exactly one
    separator between them unless [a] is empty or already ends with one. *)
Definition os_path_join (a b : string) : string :=
  if startswith b "/" then b
  else if (String.eqb a EmptyString || endswith_sep a)%bool then a +:+ b
  else a +:+ "/" +:+ b.

(** [os.path.join(a, v)] for a decoded value: only [str] is accepted. *)
Definition os_path_join_json (a : string) (v : json) : result string :=
  match v with
  | JStr b => Ok (os_path_join a b)
  | _ => Raise (Exn "TypeError"
                  ("join() argument must be str, bytes, or os.PathLike object, not '"
                   +:+ type_name v +:+ "'"))
  end.

(** Iteration [for x in v]: a list yields its items, a string its
    characters, an object its keys; other values are not iterable. *)
Definition chars (s : string) : list json := JStr <$> letters s.

Definition py_iter (v : json) : result (list json) :=
  match v with
  | JList l => Ok l
  | JStr s => Ok (chars s)
  | JObj kv => Ok (JStr <$> kv.*1)
  | _ => Raise (Exn "TypeError" ("'" +:+ type_name v +:+ "' object is not iterable"))
  end.

(** A list comprehension [[f(x) for x in l]] whose [f] may raise. *)
Fixpoint comprehension {A B} (f : A -> result B) (l : list A) : result (list B) :=
  match l with
  | [] => Ok []
  | x :: rest =>
      y ← f x;
      ys ← comprehension f rest;
      Ok (y :: ys)
  end.

End Py.
Import Py.

(** ** Option decoding and path resolution (the click callbacks) *)

Module Callbacks.

(** The click context as far as the callbacks read it: the parameters
    already processed. *)
Record Context := { params : gmap string string }.

Section WithConfig.
(** [reana_commons.config.SHARED_VOLUME_PATH] *)
Variable SHARED_VOLUME_PATH : string.
(** [json.loads(base64.standard_b64decode(_).decode())] *)
Variable b64_json_loads : string -> result json.

(** [load_json(ctx, param, value)]: drops the first character of the
    option text and decodes the rest. *)
Definition load_json (ctx : Context) (value : option string) : result json :=
  match value with
  | None => Raise (Exn "TypeError" "'NoneType' object is not subscriptable")
  | Some v => b64_json_loads (slice_from_1 v)
  end.

(** [operational_options.get(k, d)] needs the decoded value to be an
    object. *)
Definition as_dict (v : json) : result dict :=
  match v with
  | JObj kv => Ok (dict_of_pairs kv)
  | _ => Raise (Exn "AttributeError"
                  ("'" +:+ type_name v +:+ "' object has no attribute 'get'"))
  end.

(** Lines 47-63 of [load_yadage_operational_options], on the decoded
    mapping: [workspace] is [ctx.params.get("workflow_workspace")]. *)
Definition resolve_operational_options
    (workspace : option string) (operational_options : dict) : result dict :=
  let workflow_workspace := format_slash SHARED_VOLUME_PATH workspace in
  toplevel ←
    match default (JStr EmptyString) (operational_options !! "toplevel") with
    | JStr s => Ok s
    | v => Raise (Exn "AttributeError"
                    ("'" +:+ type_name v +:+ "' object has no attribute 'startswith'"))
    end;
  let toplevel :=
    if negb (startswith toplevel "github:")
    then os_path_join workflow_workspace toplevel
    else toplevel in
  let operational_options := <["toplevel" := JStr toplevel]> operational_options in
  initdir ←
    os_path_join_json workflow_workspace
      (default (JStr EmptyString) (operational_options !! "initdir"));
  let operational_options := <["initdir" := JStr initdir]> operational_options in
  initfiles ← py_iter (default (JList []) (operational_options !! "initfiles"));
  initfiles ← comprehension (os_path_join_json workflow_workspace) initfiles;
  Ok (<["initfiles" := JList (JStr <$> initfiles)]> operational_options).

Definition load_yadage_operational_options
    (ctx : Context) (operational_options : option string) : result dict :=
  decoded ← load_json ctx operational_options;
  operational_options ← as_dict decoded;
  resolve_operational_options (params ctx !! "workflow_workspace") operational_options.

End WithConfig.

End Callbacks.
Import Callbacks.

(** ** Effects: what a run does to the outside world *)

Module Effects.

(** Modelled from the spec: the names of the lifecycle states; the module
    itself publishes the bare numbers 1, 2 and 3. *)
Inductive RunLifecycleState := CREATED | RUNNING | FINISHED | FAILED.

Definition state_number (s : RunLifecycleState) : Z :=
  match s with
  | CREATED => 0
  | RUNNING => 1
  | FINISHED => 2
  | FAILED => 3
  end.

Inductive level := INFO | ERROR.

(** Opaque handle of the execution backend built by
    [setupbackend_fromstring]. *)
Inductive Backend := BackendHandle (n : nat).

(** Keyword arguments of [yadageschemas.load]. *)
Record SpecOpts := {
  so_toplevel : json;
  so_schema_name : string;
  so_schemadir : option string;
  so_load_as_ref : bool }.

Record ValidOpts := {
  vo_schema_name : string;
  vo_schemadir : option string }.

(** Keyword arguments of [steering_ctx]. *)
Record SteeringArgs := {
  dataarg : string;
  dataopts_initdir : json;
  initdata : dict;
  visualize : bool;
  updateinterval : Z;
  loginterval : Z;
  backend : Backend;
  accept_metadir : bool;
  workflow_json : json }.

(** What [yaml.safe_load] hands to the [**] unpacking: a mapping whose keys
    are all strings, a mapping with a key that is not a string, or a value
    of another type (a scalar, a sequence, [None] for an empty document),
    of which the name of the type is kept. *)
Inductive yaml := YMapping (m : dict) | YNonStrKeys | YOther (type_name : string).

(** One observable action of the process, in program order. *)
Inductive event :=
| EvLog (lv : level) (msg : string)
| EvSetenv (key value : string)
| EvUmask (mask : Z)
| EvSetupBackend (spec : string)
| EvNewPublisher
| EvExists (path : string)
| EvSchemaLoad (spec : string) (specopts : SpecOpts) (validopts : ValidOpts) (validate : bool)
| EvOpen (file : json)
| EvCheckConnection
| EvSteeringCtx (args : SteeringArgs)
| EvPublish (uuid : string) (status : Z) (logs : option string)
| EvDelivered (uuid : string) (status : Z) (logs : option string)
| EvAdageArgument (tracker : string)
| EvSteeringExit.

(** A computation that appends events and returns or raises. *)
Definition M (A : Type) : Type := (list event * result A)%type.

Definition trace {A} (m : M A) : list event := fst m.
Definition outcome {A} (m : M A) : result A := snd m.

#[global] Instance M_ret : MRet M := fun A a => ([], Ok a).
#[global] Instance M_bind : MBind M := fun A B f m =>
  match m with
  | (t, Ok a) => let '(t', r) := f a in ((t ++ t')%list, r)
  | (t, Raise e) => (t, Raise e)
  | (t, Escape e) => (t, Escape e)
  end.

(** An external call: its event, then its outcome. *)
Definition call {A} (ev : event) (r : result A) : M A := ([ev], r).

(** A pure step that may raise (a key lookup, a conversion). *)
Definition lift {A} (r : result A) : M A := ([], r).

Definition emit (ev : event) : M unit := ([ev], Ok tt).

Definition log (lv : level) (msg : string) : M unit := emit (EvLog lv msg).

(** [try: body except Exception as e: handler(e)]: an exception that is
    not an instance of [Exception] passes through. *)
Definition try_except {A} (body : M A) (handler : exn -> M A) : M A :=
  match body with
  | (t, Ok a) => (t, Ok a)
  | (t, Raise e) => let '(t', r) := handler e in ((t ++ t')%list, r)
  | (t, Escape e) => (t, Escape e)
  end.

End Effects.
Import Effects.

(** ** The status publisher *)

Module Publisher.

(** The publisher object as the supervisor uses it: its truth value in
    [if publisher:] (true for an instance unless its class defines
    [__bool__] or [__len__]) and the delivery attempt over the channel. *)
Record t := {
  truthy : bool;
  deliver : string -> Z -> option string -> result unit }.

(** Modelled from the spec: [REANAWorkflowStatusPublisher.publish_workflow_status]
    lives in [utils.py], which is not part of the sources at hand.  One
    delivery attempt per call; a delivery failure, of whatever kind, is
    caught and logged locally and is never propagated to the caller. *)
Definition publish_workflow_status
    (p : t) (workflow_uuid : string) (status : Z) (logs : option string) : M unit :=
  emit (EvPublish workflow_uuid status logs);;
  match deliver p workflow_uuid status logs with
  | Ok _ => emit (EvDelivered workflow_uuid status logs)
  | Raise e | Escape e => log ERROR ("Status publish failed: " +:+ exn_str e)
  end.

End Publisher.

(** ** The supervisor *)

Module Cli.

(** The collaborators of [run_yadage_workflow] outside this module:
    configuration constants, the engine, the schema loader, the file system
    and the job controller. *)
Record Env := {
  SHARED_VOLUME_PATH : string;
  REANA_WORKFLOW_UMASK : Z;
  setupbackend_fromstring : string -> result Backend;
  REANAWorkflowStatusPublisher : result Publisher.t;
  os_path_exists : string -> bool;
  yadageschemas_load : string -> SpecOpts -> ValidOpts -> bool -> result json;
  yaml_safe_load_open : json -> result yaml;
  check_connection_to_job_controller : result unit;
  steering_ctx : SteeringArgs -> result unit;
  adage_argument : string -> result unit;
  steering_ctx_exit : result unit }.

Section Run.
Variable E : Env.

(** [**doc]: keyword unpacking needs a mapping with string keys. *)
Definition kwargs (doc : yaml) : result dict :=
  match doc with
  | YMapping m => Ok m
  | YNonStrKeys => Raise (Exn "TypeError" "keywords must be strings")
  | YOther ty =>
      Raise (Exn "TypeError"
               ("dict.update() argument after ** must be a mapping, not " +:+ ty))
  end.

(** Lines 135-136: the loop over the init files. *)
Fixpoint load_initfiles (initfiles : list json) (initdata : dict) : M dict :=
  match initfiles with
  | [] => mret initdata
  | initfile :: rest =>
      doc ← call (EvOpen initfile) (yaml_safe_load_open E initfile);
      m ← lift (kwargs doc);
      load_initfiles rest (dict_update initdata m)
  end.

(** [initdata.update(workflow_parameters)]: [None] is not iterable. *)
Definition update_with_parameters
    (initdata : dict) (workflow_parameters : option dict) : result dict :=
  match workflow_parameters with
  | Some p => Ok (dict_update initdata p)
  | None => Raise (Exn "TypeError" "'NoneType' object is not iterable")
  end.

(** Lines 134-137: the merge of the initial data. *)
Definition merge_initdata
    (initfiles : json) (workflow_parameters : option dict) : M dict :=
  files ← lift (py_iter initfiles);
  initdata ← load_initfiles files ∅;
  lift (update_with_parameters initdata workflow_parameters).

(** Lines 108-139 and the evaluation of the arguments of [steering_ctx]:
    everything the guarded region does before the engine is entered. *)
Definition preparation
    (workflow_workspace workflow_file workflow_file_abs_path : string)
    (cap_backend : Backend)
    (workflow_parameters : option dict) (operational_options : dict)
    : M SteeringArgs :=
  exists_ ← call (EvExists workflow_file_abs_path)
                 (Ok (os_path_exists E workflow_file_abs_path));
  workflow_json ←
    (if negb exists_ then
       let message := "Workflow file " +:+ workflow_file +:+ " does not exist" in
       lift (Raise (Exn "Exception" message))
     else
       let schema_name := "yadage/workflow-schema" in
       let schemadir := None in
       toplevel ← lift (getitem operational_options "toplevel");
       let specopts := {| so_toplevel := toplevel;
                          so_schema_name := schema_name;
                          so_schemadir := schemadir;
                          so_load_as_ref := false |} in
       let validopts := {| vo_schema_name := schema_name;
                           vo_schemadir := schemadir |} in
       call (EvSchemaLoad workflow_file specopts validopts true)
            (yadageschemas_load E workflow_file specopts validopts true));
  initdir ← lift (getitem operational_options "initdir");
  initfiles ← lift (getitem operational_options "initfiles");
  initdata ← merge_initdata initfiles workflow_parameters;
  call EvCheckConnection (check_connection_to_job_controller E);;
  mret {| dataarg := workflow_workspace;
          dataopts_initdir := initdir;
          initdata := initdata;
          visualize := true;
          updateinterval := 5;
          loginterval := 5;
          backend := cap_backend;
          accept_metadir := contains operational_options "accept_metadir";
          workflow_json := workflow_json |}.

(** Lines 141-167: the [with steering_ctx(...)] block and what follows it.
    An exception raised in the block leaves the context manager unchanged;
    on a normal end of the block the engine runs at context exit. *)
Definition execution
    (publisher : Publisher.t) (workflow_uuid workflow_workspace : string)
    (args : SteeringArgs) : M unit :=
  call (EvSteeringCtx args) (steering_ctx E args);;
  log INFO "running workflow on context: ";;  (* the rendering of locals() is left out *)
  Publisher.publish_workflow_status publisher workflow_uuid 1 None;;
  call (EvAdageArgument workflow_uuid) (adage_argument E workflow_uuid);;
  call EvSteeringExit (steering_ctx_exit E);;
  Publisher.publish_workflow_status publisher workflow_uuid 2 None;;
  log INFO ("Workflow " +:+ workflow_uuid +:+ " finished. Files available at "
            +:+ workflow_workspace +:+ ".").

(** The body of the [try] statement. *)
Definition guarded_body
    (publisher : Publisher.t)
    (workflow_uuid workflow_workspace workflow_file workflow_file_abs_path : string)
    (cap_backend : Backend)
    (workflow_parameters : option dict) (operational_options : dict) : M unit :=
  args ← preparation workflow_workspace workflow_file workflow_file_abs_path
                     cap_backend workflow_parameters operational_options;
  execution publisher workflow_uuid workflow_workspace args.

(** The [except Exception as e] clause, lines 168-178. *)
Definition failure_handler
    (publisher : Publisher.t) (workflow_uuid : string) (e : exn) : M unit :=
  log ERROR ("Workflow failed: " +:+ exn_str e);;
  if Publisher.truthy publisher then
    Publisher.publish_workflow_status publisher workflow_uuid 3
      (Some ("workflow failed: " +:+ exn_str e))
  else
    log ERROR ("Workflow " +:+ workflow_uuid
               +:+ " failed but status could not be published.").

(** The command itself.  Its string arguments come from the command line
    and [SHARED_VOLUME_PATH] from the configuration, so they hold no NUL
    byte and the two assignments to [os.environ] go through. *)
Definition run_yadage_workflow
    (workflow_uuid workflow_workspace workflow_file : string)
    (workflow_parameters : option dict) (operational_options : dict) : M unit :=
  log INFO "getting socket..";;
  let workflow_workspace :=
    format_slash (SHARED_VOLUME_PATH E) (Some workflow_workspace) in
  emit (EvSetenv "workflow_uuid" workflow_uuid);;
  emit (EvSetenv "workflow_workspace" workflow_workspace);;
  emit (EvUmask (REANA_WORKFLOW_UMASK E));;
  cap_backend ← call (EvSetupBackend "fromenv") (setupbackend_fromstring E "fromenv");
  let workflow_file_abs_path := os_path_join workflow_workspace workflow_file in
  publisher ← call EvNewPublisher (REANAWorkflowStatusPublisher E);
  try_except
    (guarded_body publisher workflow_uuid workflow_workspace workflow_file
                  workflow_file_abs_path cap_backend
                  workflow_parameters operational_options)
    (failure_handler publisher workflow_uuid).

End Run.

End Cli.
Import Cli.

(** ** Observations on a run and the vocabulary of the properties *)

(** A path is absolute when it starts with the separator. *)
Definition absolute (p : string) : bool := startswith p "/".
Definition relative (p : string) : bool := negb (absolute p).

(** Lines 50-51: the toplevel after resolution under [root]. *)
Definition resolve_toplevel (root toplevel : string) : string :=
  if negb (startswith toplevel "github:") then os_path_join root toplevel else toplevel.

(** A decoded JSON list of strings. *)
Definition JStrs (l : list string) : json := JList (JStr <$> l).

(** A status event as handed to the publisher: run identifier, numeric
    state, optional log text. *)
Definition StatusEvent : Type := string * Z * option string.

(** The publish calls of a trace, in order. *)
Definition publishes (t : list event) : list StatusEvent :=
  omap (fun ev => match ev with EvPublish u s l => Some (u, s, l) | _ => None end) t.

(** The engine invocations, the schema loader calls and the files opened. *)
Definition engine_calls (t : list event) : list SteeringArgs :=
  omap (fun ev => match ev with EvSteeringCtx a => Some a | _ => None end) t.

Definition loader_calls (t : list event) : list string :=
  omap (fun ev => match ev with EvSchemaLoad s _ _ _ => Some s | _ => None end) t.

Definition opened (t : list event) : list json :=
  omap (fun ev => match ev with EvOpen f => Some f | _ => None end) t.

(** FINISHED and FAILED are the terminal states. *)
Definition is_terminal (s : Z) : bool :=
  Z.eqb s (state_number FINISHED) || Z.eqb s (state_number FAILED).

Definition terminal_publishes (t : list event) : list StatusEvent :=
  List.filter (fun ev => is_terminal ev.1.2) (publishes t).

Definition running_event (u : string) : StatusEvent := (u, state_number RUNNING, None).
Definition finished_event (u : string) : StatusEvent := (u, state_number FINISHED, None).
Definition failed_event (u : string) (e : exn) : StatusEvent :=
  (u, state_number FAILED, Some ("workflow failed: " +:+ exn_str e)).

(** The events the preparation phase may produce, and computations that
    produce no other. *)
Definition prep_event (ev : event) : Prop :=
  match ev with
  | EvExists _ | EvSchemaLoad _ _ _ _ | EvOpen _ | EvCheckConnection => True
  | _ => False
  end.

Definition quiet {A} (m : M A) : Prop := Forall prep_event (trace m).

(** The workspace directory of a run. *)
Definition workspace_path (E : Env) (w : string) : string :=
  format_slash (SHARED_VOLUME_PATH E) (Some w).

(** What a run does before it enters the guarded region. *)
Definition prelude (E : Env) (u w : string) : list event :=
  [ EvLog INFO "getting socket..";
    EvSetenv "workflow_uuid" u;
    EvSetenv "workflow_workspace" (workspace_path E w);
    EvUmask (REANA_WORKFLOW_UMASK E);
    EvSetupBackend "fromenv";
    EvNewPublisher ].

(** The preparation phase and the guarded body as [run_yadage_workflow]
    instantiates them. *)
Definition prepare (E : Env) (b : Backend) (w f : string)
    (params : option dict) (opts : dict) : M SteeringArgs :=
  preparation E (workspace_path E w) f (os_path_join (workspace_path E w) f) b params opts.

Definition body (E : Env) (p : Publisher.t) (b : Backend) (u w f : string)
    (params : option dict) (opts : dict) : M unit :=
  guarded_body E p u (workspace_path E w) f (os_path_join (workspace_path E w) f) b params opts.

(** The run reaches the guarded region: the backend is set up and the
    publisher constructed. *)
Definition entered (E : Env) (b : Backend) (p : Publisher.t) : Prop :=
  setupbackend_fromstring E "fromenv" = Ok b /\ REANAWorkflowStatusPublisher E = Ok p.

(** Outcome of the engine: context entry, [adage_argument], context exit. *)
Definition engine_outcome (E : Env) (u : string) (a : SteeringArgs) : result unit :=
  steering_ctx E a ≫= fun _ => adage_argument E u ≫= fun _ =>
  steering_ctx_exit E ≫= fun _ => Ok tt.

Definition fails {A} (m : M A) : Prop := is_ok (outcome m) = false.

(** The computation is left by an exception that is not an instance of
    [Exception]. *)
Definition escapes {A} (m : M A) : Prop := exists k, outcome m = Escape k.

(** The numeric states published, in order. *)
Definition statuses (t : list event) : list Z := (fun ev => ev.1.2) <$> publishes t.

(** A preparation step of the guarded region fails: the spec file is
    missing, an init file cannot be opened, parsed or unpacked, or the job
    controller cannot be reached. *)
Inductive preparation_fails (E : Env) (w f : string) (opts : dict) : Prop :=
| spec_file_missing :
    os_path_exists E (os_path_join (workspace_path E w) f) = false ->
    preparation_fails E w f opts
| init_file_unreadable (v : json) (files : list json) (file : json) :
    opts !! "initfiles" = Some v ->
    py_iter v = Ok files ->
    file ∈ files ->
    is_ok (yaml_safe_load_open E file ≫= kwargs) = false ->
    preparation_fails E w f opts
| job_controller_unreachable (e : exn) :
    check_connection_to_job_controller E = Raise e ->
    preparation_fails E w f opts.

(** The engine raises [e] once the context is entered, that is after
    RUNNING was published. *)
Definition engine_raises (E : Env) (u : string) (a : SteeringArgs) (e : exn) : Prop :=
  steering_ctx E a = Ok tt /\
  (adage_argument E u = Raise e \/
   (adage_argument E u = Ok tt /\ steering_ctx_exit E = Raise e)).

(** The construction rule of the initial data, by precedence: a key takes
    its value from the parameters if they bind it, otherwise from the last
    file of the list that binds it. *)
Fixpoint last_binding (k : string) (contents : list dict) : option json :=
  match contents with
  | [] => None
  | m :: rest =>
      match last_binding k rest with
      | Some v => Some v
      | None => m !! k
      end
  end.

Definition precedence_lookup (contents : list dict) (parameters : dict) (k : string)
    : option json :=
  match parameters !! k with
  | Some v => Some v
  | None => last_binding k contents
  end.

(** The same rule as one mapping: later files overlaid on earlier ones, the
    parameters overlaid last. *)
Fixpoint overlay_files (contents : list dict) : dict :=
  match contents with
  | [] => ∅
  | m :: rest => overlay_files rest ∪ m
  end.

Definition overlay (contents : list dict) (parameters : dict) : dict :=
  parameters ∪ overlay_files contents.

(** The environment with another publisher constructor. *)
Definition with_publisher (r : result Publisher.t) (E : Env) : Env :=
  {| SHARED_VOLUME_PATH := SHARED_VOLUME_PATH E;
     REANA_WORKFLOW_UMASK := REANA_WORKFLOW_UMASK E;
     setupbackend_fromstring := setupbackend_fromstring E;
     REANAWorkflowStatusPublisher := r;
     os_path_exists := os_path_exists E;
     yadageschemas_load := yadageschemas_load E;
     yaml_safe_load_open := yaml_safe_load_open E;
     check_connection_to_job_controller := check_connection_to_job_controller E;
     steering_ctx := steering_ctx E;
     adage_argument := adage_argument E;
     steering_ctx_exit := steering_ctx_exit E |}.

(** Records that only tell whether a delivery worked. *)
Definition delivery_record (ev : event) : bool :=
  match ev with
  | EvDelivered _ _ _ => true
  | EvLog ERROR msg => startswith msg "Status publish failed: "
  | _ => false
  end.

(** A trace without them. *)
Definition without_delivery_records (t : list event) : list event :=
  List.filter (fun ev => negb (delivery_record ev)) t.

(** Every publish call of the trace whose delivery fails is followed up by
    an error record. *)
Definition failures_logged (p : Publisher.t) (t : list event) : Prop :=
  forall u s l e,
    EvPublish u s l ∈ t ->
    Publisher.deliver p u s l = Raise e ->
    EvLog ERROR ("Status publish failed: " +:+ exn_str e) ∈ t.

(** The messages logged at level ERROR. *)
Definition error_logs (t : list event) : list string :=
  omap (fun ev => match ev with EvLog ERROR msg => Some msg | _ => None end) t.

(** ** A sample installation *)

Module Sample.

Definition channel_up (u : string) (s : Z) (l : option string) : result unit := Ok tt.

Definition broker_error : exn := Exn "ConnectionError" "broker unreachable".

Definition channel_down (u : string) (s : Z) (l : option string) : result unit :=
  Raise broker_error.

Definition publisher : Publisher.t :=
  {| Publisher.truthy := true; Publisher.deliver := channel_up |}.

Definition deaf_publisher : Publisher.t :=
  {| Publisher.truthy := true; Publisher.deliver := channel_down |}.

Definition a_yaml : dict := {[ "x" := JNum 1; "y" := JNum 2 ]}.
Definition b_yaml : dict := {[ "y" := JNum 3; "z" := JNum 4 ]}.

Definition files (file : json) : result yaml :=
  match file with
  | JStr name =>
      if String.eqb name "a.yaml" then Ok (YMapping a_yaml)
      else if String.eqb name "b.yaml" then Ok (YMapping b_yaml)
      else Raise (Exn "FileNotFoundError" "No such file or directory")
  | _ => Raise (Exn "TypeError" "expected str, bytes or os.PathLike object")
  end.

Definition engine_error : exn := Exn "RuntimeError" "workflow step failed".

(** An installation where every collaborator works; the workspace holds
    [workflow.yml] only. *)
Definition env : Env :=
  {| SHARED_VOLUME_PATH := "/var/reana";
     REANA_WORKFLOW_UMASK := 2;
     setupbackend_fromstring := fun _ => Ok (BackendHandle 0);
     REANAWorkflowStatusPublisher := Ok publisher;
     os_path_exists := fun path => String.eqb path "/var/reana/ws/workflow.yml";
     yadageschemas_load := fun _ _ _ _ => Ok (JObj []);
     yaml_safe_load_open := files;
     check_connection_to_job_controller := Ok tt;
     steering_ctx := fun _ => Ok tt;
     adage_argument := fun _ => Ok tt;
     steering_ctx_exit := Ok tt |}.

(** The same installation with a failing engine run. *)
Definition env_engine_fails : Env :=
  {| SHARED_VOLUME_PATH := "/var/reana";
     REANA_WORKFLOW_UMASK := 2;
     setupbackend_fromstring := fun _ => Ok (BackendHandle 0);
     REANAWorkflowStatusPublisher := Ok publisher;
     os_path_exists := fun path => String.eqb path "/var/reana/ws/workflow.yml";
     yadageschemas_load := fun _ _ _ _ => Ok (JObj []);
     yaml_safe_load_open := files;
     check_connection_to_job_controller := Ok tt;
     steering_ctx := fun _ => Ok tt;
     adage_argument := fun _ => Ok tt;
     steering_ctx_exit := Raise engine_error |}.

(** The same installation where no execution backend can be set up. *)
Definition env_no_backend : Env :=
  {| SHARED_VOLUME_PATH := "/var/reana";
     REANA_WORKFLOW_UMASK := 2;
     setupbackend_fromstring := fun _ => Raise (Exn "ValueError" "unknown backend");
     REANAWorkflowStatusPublisher := Ok publisher;
     os_path_exists := fun path => String.eqb path "/var/reana/ws/workflow.yml";
     yadageschemas_load := fun _ _ _ _ => Ok (JObj []);
     yaml_safe_load_open := files;
     check_connection_to_job_controller := Ok tt;
     steering_ctx := fun _ => Ok tt;
     adage_argument := fun _ => Ok tt;
     steering_ctx_exit := Ok tt |}.

(** The same installation with a job controller out of reach. *)
Definition controller_error : exn := Exn "ConnectionError" "job controller unreachable".

Definition env_controller_down : Env :=
  {| SHARED_VOLUME_PATH := "/var/reana";
     REANA_WORKFLOW_UMASK := 2;
     setupbackend_fromstring := fun _ => Ok (BackendHandle 0);
     REANAWorkflowStatusPublisher := Ok publisher;
     os_path_exists := fun path => String.eqb path "/var/reana/ws/workflow.yml";
     yadageschemas_load := fun _ _ _ _ => Ok (JObj []);
     yaml_safe_load_open := files;
     check_connection_to_job_controller := Raise controller_error;
     steering_ctx := fun _ => Ok tt;
     adage_argument := fun _ => Ok tt;
     steering_ctx_exit := Ok tt |}.

(** The same installation with an engine run interrupted from the keyboard:
    [KeyboardInterrupt] is not an instance of [Exception]. *)
Definition interrupt : exn := Exn "KeyboardInterrupt" EmptyString.

Definition env_interrupted : Env :=
  {| SHARED_VOLUME_PATH := "/var/reana";
     REANA_WORKFLOW_UMASK := 2;
     setupbackend_fromstring := fun _ => Ok (BackendHandle 0);
     REANAWorkflowStatusPublisher := Ok publisher;
     os_path_exists := fun path => String.eqb path "/var/reana/ws/workflow.yml";
     yadageschemas_load := fun _ _ _ _ => Ok (JObj []);
     yaml_safe_load_open := files;
     check_connection_to_job_controller := Ok tt;
     steering_ctx := fun _ => Ok tt;
     adage_argument := fun _ => Escape interrupt;
     steering_ctx_exit := Ok tt |}.

Definition options : dict :=
  {[ "toplevel" := JStr "/var/reana/ws/";
     "initdir" := JStr "/var/reana/ws/";
     "initfiles" := JStrs ["a.yaml"; "b.yaml"];
     "accept_metadir" := JBool false ]}.

(** Options naming an init file the workspace does not hold. *)
Definition options_missing_initfile : dict :=
  {[ "toplevel" := JStr "/var/reana/ws/";
     "initdir" := JStr "/var/reana/ws/";
     "initfiles" := JStrs ["a.yaml"; "c.yaml"];
     "accept_metadir" := JBool false ]}.

Definition parameters : dict := {[ "z" := JNum 5 ]}.

Definition merged : dict := {[ "x" := JNum 1; "y" := JNum 3; "z" := JNum 5 ]}.

Definition args : SteeringArgs :=
  {| dataarg := "/var/reana/ws";
     dataopts_initdir := JStr "/var/reana/ws/";
     initdata := merged;
     visualize := true;
     updateinterval := 5;
     loginterval := 5;
     backend := BackendHandle 0;
     accept_metadir := true;
     workflow_json := JObj [] |}.

Definition raw_options : dict :=
  {[ "toplevel" := JStr "github:org/repo";
     "initdir" := JStr "inputs";
     "initfiles" := JStrs ["a.yaml"; "b.yaml"];
     "accept_metadir" := JBool false ]}.

Definition resolved_options : dict :=
  {[ "toplevel" := JStr "/var/reana/ws/workflow";
     "initdir" := JStr "/var/reana/ws/inputs";
     "initfiles" := JStrs ["/var/reana/ws/a.yaml"; "/var/reana/ws/b.yaml"] ]}.

End Sample.

(** The sample installation with a status channel that is down. *)
Definition deaf_env : Env := with_publisher (Ok Sample.deaf_publisher) Sample.env.

(** ** Further vocabulary: option typing, loader calls, opened files *)

(** The decoded value is a [str]. *)
Definition is_str (v : json) : bool :=
  match v with JStr _ => true | _ => false end.

(** An option that is absent or a [str]. *)
Definition str_or_absent (v : option json) : bool :=
  match v with None => true | Some v => is_str v end.

(** An option that is absent or iterates over [str] items. *)
Definition strs_or_absent (v : option json) : bool :=
  match v with
  | None => true
  | Some v => match py_iter v with Ok l => forallb is_str l | _ => false end
  end.

(** The options the path resolution accepts. *)
Definition well_typed_options (o : dict) : bool :=
  str_or_absent (o !! "toplevel") && str_or_absent (o !! "initdir")
  && strs_or_absent (o !! "initfiles").

(** The calls of the schema loader with their arguments. *)
Definition loader_events (t : list event)
    : list (string * SpecOpts * ValidOpts * bool) :=
  omap (fun ev => match ev with
                  | EvSchemaLoad s so vo v => Some (s, so, vo, v)
                  | _ => None
                  end) t.

(** The arguments [run_yadage_workflow] builds for the schema loader. *)
Definition loader_arguments (f : string) (toplevel : json)
    : string * SpecOpts * ValidOpts * bool :=
  (f,
   {| so_toplevel := toplevel; so_schema_name := "yadage/workflow-schema";
      so_schemadir := None; so_load_as_ref := false |},
   {| vo_schema_name := "yadage/workflow-schema"; vo_schemadir := None |},
   true).

(** An init file that opens, parses and unpacks as keyword arguments. *)
Definition loadable (E : Env) (file : json) : bool :=
  is_ok (yaml_safe_load_open E file ≫= kwargs).

(** The files of a list up to and including the first that is not loadable. *)
Fixpoint upto_first_failure (E : Env) (files : list json) : list json :=
  match files with
  | [] => []
  | file :: rest =>
      file :: (if loadable E file then upto_first_failure E rest else [])
  end.

(** The existence checks of a trace. *)
Definition existence_checks (t : list event) : list string :=
  omap (fun ev => match ev with EvExists p => Some p | _ => None end) t.

(** A publisher object whose truth value is false, and the sample
    installation with it. *)
Definition falsy_publisher : Publisher.t :=
  {| Publisher.truthy := false; Publisher.deliver := Sample.channel_up |}.

Definition falsy_env : Env := with_publisher (Ok falsy_publisher) Sample.env.

(** Operational options with relative and absolute paths side by side, the
    same after resolution, and options whose initfiles is one string. *)
Definition mixed_options : dict :=
  {[ "toplevel" := JStr "specs";
     "initdir" := JStr "/data/inputs";
     "initfiles" := JStrs ["a.yaml"; "/etc/b.yaml"] ]}.

Definition raw_options_resolved : dict :=
  {[ "toplevel" := JStr "github:org/repo";
     "initdir" := JStr "/var/reana/ws/inputs";
     "initfiles" := JStrs ["/var/reana/ws/a.yaml"; "/var/reana/ws/b.yaml"];
     "accept_metadir" := JBool false ]}.

Definition string_options : dict := {[ "initfiles" := JStr "ab" ]}.

(** The euro sign, one character of three bytes, and a path that starts
    with it. *)
Definition euro_sign : string :=
  String (ascii_of_nat 226) (String (ascii_of_nat 130)
    (String (ascii_of_nat 172) EmptyString)).

Definition euro_options : dict := {[ "initfiles" := JStr (euro_sign +:+ "/a") ]}.

(** * Properties *)

(** ** Paths and their resolution *)

Lemma prefix_refl_app (s t : string) : String.prefix s (s +:+ t) = true.
Proof.
  induction s as [|c s IH]; simpl.
  - by destruct t.
  - destruct (Ascii.ascii_dec c c); [exact IH | congruence].
Qed.

Lemma prefix_app_trans (p s t : string) :
  String.prefix p s = true -> String.prefix p (s +:+ t) = true.
Proof.
  revert p. induction s as [|c s IH]; intros [|a p]; simpl; try done.
  - by destruct t.
  - destruct (Ascii.ascii_dec a c); [apply IH | done].
Qed.

Lemma os_path_join_absolute a b : absolute b = true -> os_path_join a b = b.
Proof. unfold absolute, os_path_join. by intros ->. Qed.

Lemma os_path_join_relative a b :
  relative b = true ->
  os_path_join a b = a +:+ b \/ os_path_join a b = a +:+ "/" +:+ b.
Proof.
  unfold relative, absolute, os_path_join. intros H%negb_true_iff. rewrite H.
  destruct (_ || _)%bool; auto.
Qed.

Lemma os_path_join_prefix a b :
  relative b = true -> startswith (os_path_join a b) a = true.
Proof.
  intros H. unfold startswith.
  destruct (os_path_join_relative a b H) as [-> | ->]; apply prefix_refl_app.
Qed.

Example os_path_join_samples :
  os_path_join "/var/reana/ws" "a.yaml" = "/var/reana/ws/a.yaml" /\
  os_path_join "/var/reana/ws/" "a.yaml" = "/var/reana/ws/a.yaml" /\
  os_path_join "/var/reana/ws" "/etc/a.yaml" = "/etc/a.yaml" /\
  os_path_join "/var/reana/ws" EmptyString = "/var/reana/ws/".
Proof. repeat split. Qed.

Lemma comprehension_join root (l : list string) :
  comprehension (os_path_join_json root) (JStr <$> l) = Ok (os_path_join root <$> l).
Proof.
  induction l as [|x l IH]; [done|].
  rewrite !fmap_cons. cbn [comprehension]. by rewrite IH.
Qed.

Section Typed.
Variables (shared : string) (workspace : option string) (o : dict).
Variables (toplevel initdir : option string) (initfiles : option (list string)).
Hypothesis Htop : o !! "toplevel" = JStr <$> toplevel.
Hypothesis Hdir : o !! "initdir" = JStr <$> initdir.
Hypothesis Hfiles : o !! "initfiles" = JStrs <$> initfiles.

Lemma resolve_typed :
  resolve_operational_options shared workspace o =
  Ok (<["initfiles" :=
           JStrs (os_path_join (format_slash shared workspace) <$> default [] initfiles)]>
       (<["initdir" :=
            JStr (os_path_join (format_slash shared workspace) (default EmptyString initdir))]>
         (<["toplevel" :=
              JStr (resolve_toplevel (format_slash shared workspace)
                      (default EmptyString toplevel))]> o))).
Proof.
  unfold resolve_operational_options.
  rewrite Htop. 
  assert (default (JStr EmptyString) (JStr <$> toplevel) = JStr (default EmptyString toplevel)) as -> by by destruct toplevel.
  cbn [mbind result_bind]. 
  rewrite lookup_insert_ne by done. rewrite Hdir.
  assert (default (JStr EmptyString) (JStr <$> initdir) = JStr (default EmptyString initdir)) as -> by by destruct initdir.
  cbn [mbind result_bind os_path_join_json].
  rewrite !lookup_insert_ne by done. rewrite Hfiles.
  assert (default (JList []) (JStrs <$> initfiles) = JStrs (default [] initfiles)) as -> by by destruct initfiles.
  cbn [mbind result_bind py_iter JStrs]. rewrite comprehension_join. done.
Qed.
End Typed.

Lemma append_empty_r (s : string) : s +:+ EmptyString = s.
Proof.
  induction s as [|c s IH]; [done|].
  change (String c (s +:+ EmptyString) = String c s). by rewrite IH.
Qed.

Lemma os_path_join_empty (a : string) :
  os_path_join a EmptyString = a \/ os_path_join a EmptyString = a +:+ "/".
Proof.
  unfold os_path_join. cbn [startswith String.prefix].
  destruct (_ || _)%bool; rewrite !append_empty_r; auto.
Qed.

(** C8.  For operational options whose path values are relative, the
    resolution succeeds and yields a toplevel, an initdir and initfiles
    entries that all start with the workspace root, except that a toplevel
    starting with "github:" is returned unchanged.  An absent initdir
    resolves to [os.path.join] of the workspace root and the empty string,
    that is the workspace root itself (with the separator [os.path.join]
    puts after a root that does not end with one); the initfiles keep their
    order, and the other keys are passed through. *)
Theorem resolve_prefixes_workspace_root
    (shared : string) (workspace : option string) (o : dict)
    (toplevel initdir : option string) (initfiles : option (list string)) :
  o !! "toplevel" = JStr <$> toplevel ->
  o !! "initdir" = JStr <$> initdir ->
  o !! "initfiles" = JStrs <$> initfiles ->
  relative (default EmptyString toplevel) = true ->
  relative (default EmptyString initdir) = true ->
  Forall (fun f => relative f = true) (default [] initfiles) ->
  let root := format_slash shared workspace in
  exists (t' d' : string) (fs' : list string) (o' : dict),
    resolve_operational_options shared workspace o = Ok o' /\
    o' !! "toplevel" = Some (JStr t') /\
    o' !! "initdir" = Some (JStr d') /\
    o' !! "initfiles" = Some (JStrs fs') /\
    (if startswith (default EmptyString toplevel) "github:"
     then t' = default EmptyString toplevel
     else startswith t' root = true) /\
    startswith d' root = true /\
    (initdir = None -> d' = os_path_join root EmptyString /\ (d' = root \/ d' = root +:+ "/")) /\
    fs' = os_path_join root <$> default [] initfiles /\
    Forall (fun f' => startswith f' root = true) fs' /\
    (forall k, k <> "toplevel" -> k <> "initdir" -> k <> "initfiles" -> o' !! k = o !! k).
Proof.
  intros Ht Hd Hf Rt Rd Rf root.
  eexists _, _, _, _. split; [by apply resolve_typed|].
  fold root. split_and!.
  - rewrite lookup_insert_ne, lookup_insert_ne by done. apply lookup_insert_eq.
  - rewrite lookup_insert_ne by done. apply lookup_insert_eq.
  - apply lookup_insert_eq.
  - unfold resolve_toplevel. destruct (startswith (default EmptyString toplevel) "github:"); [done|].
    by apply os_path_join_prefix.
  - by apply os_path_join_prefix.
  - intros ->. split; [done|]. apply os_path_join_empty.
  - done.
  - apply Forall_fmap. eapply Forall_impl; [exact Rf|]. intros f Hrel. by apply os_path_join_prefix.
  - intros k ? ? ?. by rewrite !lookup_insert_ne.
Qed.

Lemma resolve_fixed_point (shared : string) (workspace : option string) (o : dict)
    (t d : string) (fs : list string) :
  o !! "toplevel" = Some (JStr t) ->
  o !! "initdir" = Some (JStr d) ->
  o !! "initfiles" = Some (JStrs fs) ->
  absolute t = true \/ startswith t "github:" = true ->
  absolute d = true ->
  Forall (fun f => absolute f = true) fs ->
  resolve_operational_options shared workspace o = Ok o.
Proof.
  intros Ht Hd Hf At Ad Af.
  rewrite (resolve_typed shared workspace o (Some t) (Some d) (Some fs)) by done.
  cbn [default from_option id]. f_equal.
  assert (resolve_toplevel (format_slash shared workspace) t = t) as ->.
  { unfold resolve_toplevel. destruct (startswith t "github:") eqn:G; [done|].
    destruct At as [At|]; [|done]. by apply os_path_join_absolute. }
  rewrite (os_path_join_absolute _ d) by done.
  assert (os_path_join (format_slash shared workspace) <$> fs = fs) as ->.
  { clear Hf. induction Af as [|f fs Hf' Hfs IH]; [done|].
    rewrite fmap_cons, IH. by rewrite os_path_join_absolute. }
  rewrite (insert_id o "toplevel") by done.
  rewrite (insert_id o "initdir") by done.
  by rewrite (insert_id o "initfiles").
Qed.

(** C9.  Resolving options whose toplevel, initdir and initfiles are already
    absolute leaves them unchanged: [os.path.join] drops the workspace root in
    front of an absolute component, so nothing is prefixed twice. *)
Theorem resolve_absolute_unchanged
    (shared : string) (workspace : option string) (o : dict)
    (t d : string) (fs : list string) :
  o !! "toplevel" = Some (JStr t) ->
  o !! "initdir" = Some (JStr d) ->
  o !! "initfiles" = Some (JStrs fs) ->
  absolute t = true ->
  absolute d = true ->
  Forall (fun f => absolute f = true) fs ->
  resolve_operational_options shared workspace o = Ok o.
Proof. intros. eapply resolve_fixed_point; eauto. Qed.

Lemma resolve_absolute_unchanged_witness :
  resolve_operational_options "/var/reana" (Some "ws") Sample.resolved_options =
  Ok Sample.resolved_options.
Proof.
  apply (resolve_absolute_unchanged "/var/reana" (Some "ws") Sample.resolved_options
           "/var/reana/ws/workflow" "/var/reana/ws/inputs"
           ["/var/reana/ws/a.yaml"; "/var/reana/ws/b.yaml"]);
    first [reflexivity | repeat constructor].
Defined.

Lemma resolve_prefixes_workspace_root_witness :
  exists (t' d' : string) (fs' : list string) (o' : dict),
    resolve_operational_options "/var/reana" (Some "ws") Sample.raw_options = Ok o' /\
    o' !! "toplevel" = Some (JStr t') /\
    t' = "github:org/repo" /\
    o' !! "initdir" = Some (JStr d') /\
    startswith d' "/var/reana/ws" = true /\
    o' !! "initfiles" = Some (JStrs fs') /\
    fs' = ["/var/reana/ws/a.yaml"; "/var/reana/ws/b.yaml"].
Proof.
  destruct (resolve_prefixes_workspace_root "/var/reana" (Some "ws") Sample.raw_options
              (Some "github:org/repo") (Some "inputs") (Some ["a.yaml"; "b.yaml"])
              eq_refl eq_refl eq_refl eq_refl eq_refl)
    as (t' & d' & fs' & o' & Hres & Ht & Hd & Hf & Hgit & Hdir & _ & Hfs & _).
  { repeat constructor. }
  exists t', d', fs', o'. split_and!; [exact Hres | exact Ht | exact Hgit | exact Hd
                                     | exact Hdir | exact Hf | exact Hfs].
Defined.

(** Under an absolute shared volume path a second resolution changes
    nothing, whatever the first one was given. *)
Lemma format_slash_absolute (shared : string) (workspace : option string) :
  absolute shared = true \/ shared = EmptyString ->
  absolute (format_slash shared workspace) = true.
Proof.
  unfold absolute, startswith, format_slash. intros [H | ->].
  - by apply prefix_app_trans.
  - destruct workspace as [[|c name]|]; reflexivity.
Qed.

Lemma os_path_join_absolute_root (a b : string) :
  absolute a = true -> absolute (os_path_join a b) = true.
Proof.
  intros H. unfold os_path_join. destruct (startswith b "/") eqn:Hb; [done|].
  unfold absolute, startswith in *.
  destruct (_ || _)%bool; by apply prefix_app_trans.
Qed.

(** X15.  Under an absolute shared volume path the resolution is idempotent:
    whatever well-typed options the first pass was given, a second pass over
    its result returns that result unchanged. *)
Lemma resolve_idempotent
    (shared : string) (workspace : option string) (o o' : dict)
    (toplevel initdir : option string) (initfiles : option (list string)) :
  o !! "toplevel" = JStr <$> toplevel ->
  o !! "initdir" = JStr <$> initdir ->
  o !! "initfiles" = JStrs <$> initfiles ->
  absolute shared = true \/ shared = EmptyString ->
  resolve_operational_options shared workspace o = Ok o' ->
  resolve_operational_options shared workspace o' = Ok o'.
Proof.
  intros Ht Hd Hf Habs Hres.
  pose proof (format_slash_absolute shared workspace Habs) as Hroot.
  rewrite (resolve_typed shared workspace o toplevel initdir initfiles Ht Hd Hf) in Hres.
  injection Hres as <-.
  eapply resolve_fixed_point.
  - rewrite lookup_insert_ne, lookup_insert_ne by done. apply lookup_insert_eq.
  - rewrite lookup_insert_ne by done. apply lookup_insert_eq.
  - apply lookup_insert_eq.
  - unfold resolve_toplevel.
    destruct (startswith (default EmptyString toplevel) "github:") eqn:Hgit; cbn [negb].
    + by right.
    + left. by apply os_path_join_absolute_root.
  - by apply os_path_join_absolute_root.
  - apply Forall_fmap, Forall_forall. intros f _. by apply os_path_join_absolute_root.
Qed.

(** ** Traces and outcomes of composed computations *)

Section MonadLaws.
Context {A B : Type}.

Lemma trace_bind (m : M A) (f : A -> M B) :
  trace (m ≫= f) =
  (trace m ++ match outcome m with Ok a => trace (f a) | _ => [] end)%list.
Proof.
  destruct m as [t [a|e|e]]; cbn.
  - by destruct (f a).
  - by rewrite app_nil_r.
  - by rewrite app_nil_r.
Qed.

Lemma outcome_bind (m : M A) (f : A -> M B) :
  outcome (m ≫= f) =
  match outcome m with
  | Ok a => outcome (f a)
  | Raise e => Raise e
  | Escape e => Escape e
  end.
Proof. destruct m as [t [a|e|e]]; cbn; [by destruct (f a) | done | done]. Qed.

Lemma trace_try_except (body : M A) (handler : exn -> M A) :
  trace (try_except body handler) =
  (trace body ++ match outcome body with Raise e => trace (handler e) | _ => [] end)%list.
Proof.
  destruct body as [t [a|e|e]]; cbn.
  - by rewrite app_nil_r.
  - by destruct (handler e).
  - by rewrite app_nil_r.
Qed.

Lemma outcome_try_except (body : M A) (handler : exn -> M A) :
  outcome (try_except body handler) =
  match outcome body with
  | Ok a => Ok a
  | Raise e => outcome (handler e)
  | Escape e => Escape e
  end.
Proof. destruct body as [t [a|e|e]]; cbn; [done | by destruct (handler e) | done]. Qed.

End MonadLaws.

Lemma publishes_app t1 t2 : publishes (t1 ++ t2) = (publishes t1 ++ publishes t2)%list.
Proof. apply omap_app. Qed.

Lemma quiet_bind {A B} (m : M A) (f : A -> M B) :
  quiet m -> (forall a, quiet (f a)) -> quiet (m ≫= f).
Proof.
  unfold quiet. intros Hm Hf. rewrite trace_bind. apply Forall_app. split; [done|].
  destruct (outcome m); [apply Hf | constructor | constructor].
Qed.

Lemma quiet_lift {A} (r : result A) : quiet (lift r).
Proof. constructor. Qed.

Lemma quiet_ret {A} (a : A) : quiet (mret a : M A).
Proof. constructor. Qed.

Lemma quiet_call {A} ev (r : result A) : prep_event ev -> quiet (call ev r).
Proof. intros H. by repeat constructor. Qed.

Section PreparationEvents.
Variable E : Env.

Lemma load_initfiles_quiet files acc : quiet (load_initfiles E files acc).
Proof.
  revert acc. induction files as [|f files IH]; intros acc; cbn [load_initfiles].
  - apply quiet_ret.
  - apply quiet_bind; [by apply quiet_call|]. intros doc.
    apply quiet_bind; [apply quiet_lift|]. intros m. apply IH.
Qed.

Lemma preparation_quiet w f abs b params opts :
  quiet (preparation E w f abs b params opts).
Proof.
  unfold preparation, merge_initdata.
  repeat first
    [ apply quiet_ret | apply quiet_lift | apply load_initfiles_quiet
    | apply quiet_call; exact I
    | apply quiet_bind; [|intros ?]
    | match goal with |- quiet (if ?c then _ else _) => destruct c end ].
Qed.

End PreparationEvents.

(** The block around the engine call, by cases on what the engine and the
    status channel do; the handler, by cases on the publisher. *)
Ltac engine_cases E p u a :=
  unfold execution, Publisher.publish_workflow_status;
  destruct (steering_ctx E a) as [[]|?|?]; [|done|done];
  destruct (adage_argument E u) as [[]|?|?] eqn:?;
  destruct (steering_ctx_exit E) as [[]|?|?] eqn:?;
  destruct (Publisher.deliver p u 1 None); cbn;
  repeat match goal with H : _ = _ |- _ => rewrite H end; cbn; try done;
  by destruct (Publisher.deliver p u 2 None).

Ltac handler_cases p :=
  unfold failure_handler, Publisher.publish_workflow_status;
  destruct (Publisher.truthy p); [|done];
  by destruct (Publisher.deliver _ _ _ _).

Lemma engine_calls_app t1 t2 :
  engine_calls (t1 ++ t2) = (engine_calls t1 ++ engine_calls t2)%list.
Proof. apply omap_app. Qed.

Section RunStructure.
Variable E : Env.
Variables (u w f : string) (params : option dict) (opts : dict).

Lemma run_entered b p :
  entered E b p ->
  run_yadage_workflow E u w f params opts =
  ((prelude E u w ++ trace (try_except (body E p b u w f params opts) (failure_handler p u)))%list,
   outcome (try_except (body E p b u w f params opts) (failure_handler p u))).
Proof.
  intros [Hb Hp]. unfold run_yadage_workflow, log, emit, call. rewrite Hb, Hp.
  cbn [mbind M_bind]. fold (workspace_path E w). fold (body E p b u w f params opts).
  by destruct (try_except _ _).
Qed.

Lemma publish_publishes p s l :
  publishes (trace (Publisher.publish_workflow_status p u s l)) = [(u, s, l)].
Proof. unfold Publisher.publish_workflow_status. by destruct (Publisher.deliver _ _ _ _). Qed.

Lemma publish_outcome p s l :
  outcome (Publisher.publish_workflow_status p u s l) = Ok tt.
Proof. unfold Publisher.publish_workflow_status. by destruct (Publisher.deliver _ _ _ _). Qed.

Lemma execution_outcome p ws a :
  outcome (execution E p u ws a) = engine_outcome E u a.
Proof.
  unfold engine_outcome. engine_cases E p u a.
Qed.

Lemma execution_publishes p ws a :
  publishes (trace (execution E p u ws a)) =
  match steering_ctx E a with
  | Ok _ =>
      running_event u ::
      match adage_argument E u ≫= (fun _ => steering_ctx_exit E) with
      | Ok _ => [finished_event u]
      | _ => []
      end
  | _ => []
  end.
Proof.
  engine_cases E p u a.
Qed.

Lemma execution_engine_calls p ws a :
  engine_calls (trace (execution E p u ws a)) = [a].
Proof.
  engine_cases E p u a.
Qed.

Lemma handler_outcome p e : outcome (failure_handler p u e) = Ok tt.
Proof.
  handler_cases p.
Qed.

Lemma handler_publishes p e :
  publishes (trace (failure_handler p u e)) =
  if Publisher.truthy p then [failed_event u e] else [].
Proof.
  handler_cases p.
Qed.

Lemma handler_engine_calls p e : engine_calls (trace (failure_handler p u e)) = [].
Proof.
  handler_cases p.
Qed.

Lemma quiet_publishes {A} (m : M A) : quiet m -> publishes (trace m) = [].
Proof.
  unfold quiet. induction 1 as [|ev t Hev _ IH]; [done|].
  by destruct ev.
Qed.

Lemma quiet_engine_calls {A} (m : M A) : quiet m -> engine_calls (trace m) = [].
Proof.
  unfold quiet. induction 1 as [|ev t Hev _ IH]; [done|].
  by destruct ev.
Qed.

Lemma prepare_quiet b : quiet (prepare E b w f params opts).
Proof. unfold prepare. apply preparation_quiet. Qed.

Lemma body_outcome p b :
  outcome (body E p b u w f params opts) =
  match outcome (prepare E b w f params opts) with
  | Ok a => engine_outcome E u a
  | Raise e => Raise e
  | Escape e => Escape e
  end.
Proof.
  unfold body, guarded_body. rewrite outcome_bind. fold (prepare E b w f params opts).
  destruct (outcome (prepare E b w f params opts)); [apply execution_outcome | done | done].
Qed.

Lemma body_publishes p b :
  publishes (trace (body E p b u w f params opts)) =
  match outcome (prepare E b w f params opts) with
  | Ok a => publishes (trace (execution E p u (workspace_path E w) a))
  | _ => []
  end.
Proof.
  unfold body, guarded_body. rewrite trace_bind, publishes_app.
  fold (prepare E b w f params opts).
  rewrite (quiet_publishes _ (prepare_quiet b)).
  by destruct (outcome (prepare E b w f params opts)).
Qed.

Lemma body_engine_calls p b :
  engine_calls (trace (body E p b u w f params opts)) =
  match outcome (prepare E b w f params opts) with
  | Ok a => [a]
  | _ => []
  end.
Proof.
  unfold body, guarded_body. rewrite trace_bind, engine_calls_app.
  fold (prepare E b w f params opts).
  rewrite (quiet_engine_calls _ (prepare_quiet b)).
  destruct (outcome (prepare E b w f params opts));
    [apply execution_engine_calls | done | done].
Qed.

(** Outcome and status events of a run that entered the guarded region. *)
Lemma run_outcome b p :
  entered E b p ->
  outcome (run_yadage_workflow E u w f params opts) =
  match outcome (body E p b u w f params opts) with
  | Escape k => Escape k
  | _ => Ok tt
  end.
Proof.
  intros H. rewrite (run_entered b p H). cbn [outcome snd].
  rewrite outcome_try_except.
  destruct (outcome (body E p b u w f params opts)) as [[]|e|k];
    [done | apply handler_outcome | done].
Qed.

Lemma run_publishes b p :
  entered E b p ->
  publishes (trace (run_yadage_workflow E u w f params opts)) =
  (publishes (trace (body E p b u w f params opts)) ++
   match outcome (body E p b u w f params opts) with
   | Raise e => if Publisher.truthy p then [failed_event u e] else []
   | _ => []
   end)%list.
Proof.
  intros H. rewrite (run_entered b p H). cbn [trace fst].
  rewrite publishes_app, trace_try_except, publishes_app.
  change (publishes (prelude E u w)) with (@nil StatusEvent). rewrite app_nil_l.
  f_equal.
  destruct (outcome (body E p b u w f params opts)); [done | apply handler_publishes | done].
Qed.

End RunStructure.

Lemma fails_bind_l {A B} (m : M A) (f : A -> M B) : fails m -> fails (m ≫= f).
Proof. unfold fails. rewrite outcome_bind. by destruct (outcome m). Qed.

Lemma fails_bind_r {A B} (m : M A) (f : A -> M B) :
  (forall a, fails (f a)) -> fails (m ≫= f).
Proof.
  unfold fails. rewrite outcome_bind. intros H.
  destruct (outcome m); [apply H | done | done].
Qed.

Lemma fails_raise {A} (m : M A) :
  fails m -> ~ escapes m -> exists e, outcome m = Raise e.
Proof.
  unfold fails, escapes. destruct (outcome m) as [a|e|k]; [done | eauto |].
  intros _ H. destruct H. eauto.
Qed.

Lemma raise_not_escapes {A} (m : M A) e : outcome m = Raise e -> ~ escapes m.
Proof. intros H [k Hk]. congruence. Qed.

Lemma bind_ok_inv {A B} (m : M A) (f : A -> M B) (b : B) :
  outcome (m ≫= f) = Ok b -> exists a, outcome m = Ok a /\ outcome (f a) = Ok b.
Proof. rewrite outcome_bind. destruct (outcome m); [eauto | done | done]. Qed.

Lemma fails_lift_ok {A B} (a : A) (f : A -> M B) :
  fails (f a) -> fails (lift (Ok a) ≫= f).
Proof. unfold fails. rewrite outcome_bind. done. Qed.

Lemma fails_call_raise {A} ev (e : exn) : fails (call ev (Raise e : result A)).
Proof. done. Qed.

Section PreparationSteps.
Variable E : Env.
Variables (u w f : string) (params : option dict) (opts : dict).

Lemma load_initfiles_fails files acc file :
  file ∈ files ->
  is_ok (yaml_safe_load_open E file ≫= kwargs) = false ->
  fails (load_initfiles E files acc).
Proof.
  intros Hin Hbad. revert acc.
  induction files as [|x files IH]; intros acc; [by apply elem_of_nil in Hin|].
  cbn [load_initfiles]. unfold fails. rewrite outcome_bind. cbn [call outcome snd].
  apply elem_of_cons in Hin as [<- | Hin].
  - destruct (yaml_safe_load_open E file) as [[m| |]|?|?]; try done.
  - destruct (yaml_safe_load_open E x) as [[m| |]|?|?]; try done.
    rewrite outcome_bind. cbn [kwargs lift outcome snd]. by apply IH.
Qed.

Lemma prepare_spec_missing b :
  os_path_exists E (os_path_join (workspace_path E w) f) = false ->
  prepare E b w f params opts =
  ([EvExists (os_path_join (workspace_path E w) f)],
   Raise (Exn "Exception" ("Workflow file " +:+ f +:+ " does not exist"))).
Proof. intros H. unfold prepare, preparation. cbn. by rewrite H. Qed.

Lemma prepare_bad_initfile b v files file :
  opts !! "initfiles" = Some v ->
  py_iter v = Ok files ->
  file ∈ files ->
  is_ok (yaml_safe_load_open E file ≫= kwargs) = false ->
  fails (prepare E b w f params opts).
Proof.
  intros Hv Hit Hin Hbad. unfold prepare, preparation.
  do 3 (apply fails_bind_r; intros ?).
  unfold getitem at 1. rewrite Hv. apply fails_lift_ok, fails_bind_l.
  unfold merge_initdata. rewrite Hit. apply fails_lift_ok, fails_bind_l.
  by eapply load_initfiles_fails.
Qed.

Lemma prepare_unreachable_controller b e :
  check_connection_to_job_controller E = Raise e ->
  fails (prepare E b w f params opts).
Proof.
  intros H. unfold prepare, preparation.
  do 5 (apply fails_bind_r; intros ?).
  apply fails_bind_l. rewrite H. apply fails_call_raise.
Qed.

(** What the engine is given when the preparation succeeds. *)
Lemma prepare_accept_metadir b a :
  outcome (prepare E b w f params opts) = Ok a ->
  accept_metadir a = contains opts "accept_metadir".
Proof.
  unfold prepare, preparation. intros H.
  repeat (apply bind_ok_inv in H as (? & _ & H)).
  cbn in H. by injection H as <-.
Qed.

Lemma prepare_initdata b a :
  outcome (prepare E b w f params opts) = Ok a ->
  exists files, opts !! "initfiles" = Some files /\
    outcome (merge_initdata E files params) = Ok (initdata a).
Proof.
  unfold prepare, preparation. intros H.
  do 3 (apply bind_ok_inv in H as (? & _ & H)).
  apply bind_ok_inv in H as (files & Hf & H).
  apply bind_ok_inv in H as (d & Hd & H).
  apply bind_ok_inv in H as (? & _ & H).
  cbn in H. injection H as <-. exists files. split; [|done].
  unfold getitem in Hf. destruct (opts !! "initfiles"); cbn in Hf; congruence.
Qed.

(** Preparation succeeds when each of its steps does. *)
Lemma prepare_succeeds b top wj dir files d :
  os_path_exists E (os_path_join (workspace_path E w) f) = true ->
  opts !! "toplevel" = Some top ->
  yadageschemas_load E f
    {| so_toplevel := top; so_schema_name := "yadage/workflow-schema";
       so_schemadir := None; so_load_as_ref := false |}
    {| vo_schema_name := "yadage/workflow-schema"; vo_schemadir := None |}
    true = Ok wj ->
  opts !! "initdir" = Some dir ->
  opts !! "initfiles" = Some files ->
  outcome (merge_initdata E files params) = Ok d ->
  check_connection_to_job_controller E = Ok tt ->
  outcome (prepare E b w f params opts) =
  Ok {| dataarg := workspace_path E w;
        dataopts_initdir := dir;
        initdata := d;
        visualize := true;
        updateinterval := 5;
        loginterval := 5;
        backend := b;
        accept_metadir := contains opts "accept_metadir";
        workflow_json := wj |}.
Proof.
  intros Hex Htop Hload Hdir Hfiles Hmerge Hconn.
  unfold prepare, preparation, getitem. rewrite Htop, Hdir, Hfiles.
  repeat (rewrite outcome_bind; cbn [call lift outcome snd];
          rewrite ?Hex, ?Hload, ?Hmerge, ?Hconn; cbn [negb]).

  done.
Qed.
End PreparationSteps.

(** ** The status events of a run *)

Section StatusSequences.
Variable E : Env.
Variables (u w f : string) (params : option dict) (opts : dict).
Variables (b : Backend) (p : Publisher.t).
Hypothesis Hentered : entered E b p.

Lemma preparation_fails_raises :
  preparation_fails E w f opts ->
  ~ escapes (prepare E b w f params opts) ->
  exists e, outcome (prepare E b w f params opts) = Raise e.
Proof.
  intros [Hmiss | v files file Hv Hit Hin Hbad | e He] Hesc.
  - rewrite prepare_spec_missing by done. eauto.
  - apply fails_raise; [by eapply prepare_bad_initfile | done].
  - apply fails_raise; [by eapply prepare_unreachable_controller | done].
Qed.

Lemma run_publishes_prepare_raises e :
  outcome (prepare E b w f params opts) = Raise e ->
  publishes (trace (run_yadage_workflow E u w f params opts)) =
  if Publisher.truthy p then [failed_event u e] else [].
Proof.
  intros H. rewrite (run_publishes E u w f params opts b p Hentered).
  by rewrite body_publishes, body_outcome, H.
Qed.

Lemma run_publishes_prepare_escapes k :
  outcome (prepare E b w f params opts) = Escape k ->
  publishes (trace (run_yadage_workflow E u w f params opts)) = [].
Proof.
  intros H. rewrite (run_publishes E u w f params opts b p Hentered).
  by rewrite body_publishes, body_outcome, H.
Qed.

Lemma run_publishes_prepared a :
  outcome (prepare E b w f params opts) = Ok a ->
  publishes (trace (run_yadage_workflow E u w f params opts)) =
  match steering_ctx E a with
  | Ok _ =>
      running_event u ::
      match adage_argument E u ≫= (fun _ => steering_ctx_exit E) with
      | Ok _ => [finished_event u]
      | Raise e => if Publisher.truthy p then [failed_event u e] else []
      | Escape _ => []
      end
  | Raise e => if Publisher.truthy p then [failed_event u e] else []
  | Escape _ => []
  end.
Proof.
  intros H. rewrite (run_publishes E u w f params opts b p Hentered).
  rewrite body_publishes, body_outcome, H, execution_publishes.
  unfold engine_outcome.
  destruct (steering_ctx E a) as [[]|?|?]; [|done|done]. cbn [mbind result_bind].
  destruct (adage_argument E u) as [[]|?|?]; [|done|done]. cbn [mbind result_bind].
  by destruct (steering_ctx_exit E) as [[]|?|?].
Qed.

(** C2, as amended.  In a run that entered the guarded region with a truthy
    publisher: when a preparation step fails (the workflow spec file is
    missing, an init data file is missing or unparsable, or the job
    controller check raises) and what leaves the preparation is an instance
    of [Exception], the publish calls are exactly [FAILED], carrying the
    message of that exception, with no RUNNING; when the preparation
    succeeded and the engine raises an instance [e] of [Exception] once its
    context is entered, that is after RUNNING was published, they are
    exactly [RUNNING; FAILED], the latter carrying the message of [e]. *)
Theorem failed_run_status_sequence :
  Publisher.truthy p = true ->
  (preparation_fails E w f opts ->
   ~ escapes (prepare E b w f params opts) ->
   exists e,
     outcome (prepare E b w f params opts) = Raise e /\
     publishes (trace (run_yadage_workflow E u w f params opts)) = [failed_event u e] /\
     statuses (trace (run_yadage_workflow E u w f params opts)) = [3]) /\
  (forall a e,
     outcome (prepare E b w f params opts) = Ok a ->
     engine_raises E u a e ->
     publishes (trace (run_yadage_workflow E u w f params opts)) =
       [running_event u; failed_event u e] /\
     statuses (trace (run_yadage_workflow E u w f params opts)) = [1; 3]).
Proof.
  intros Htruthy. split.
  - intros Hfail Hesc. destruct (preparation_fails_raises Hfail Hesc) as [e He].
    exists e. unfold statuses.
    rewrite (run_publishes_prepare_raises e He), Htruthy. done.
  - intros a e Ha (Hctx & Hraise). unfold statuses.
    rewrite (run_publishes_prepared a Ha), Hctx, Htruthy.
    destruct Hraise as [-> | [-> ->]]; done.
Qed.

(** C3.  In a run where every preparation step succeeds and the engine
    returns normally, the publish calls are exactly RUNNING then FINISHED
    (numbers 1 then 2), each once and in that order, and the run returns. *)
Theorem successful_run_status_sequence a :
  outcome (prepare E b w f params opts) = Ok a ->
  steering_ctx E a = Ok tt ->
  adage_argument E u = Ok tt ->
  steering_ctx_exit E = Ok tt ->
  publishes (trace (run_yadage_workflow E u w f params opts)) =
    [running_event u; finished_event u] /\
  statuses (trace (run_yadage_workflow E u w f params opts)) = [1; 2] /\
  outcome (run_yadage_workflow E u w f params opts) = Ok tt.
Proof.
  intros Ha Hctx Hadage Hexit. unfold statuses.
  rewrite (run_publishes_prepared a Ha), Hctx, Hadage, Hexit.
  split_and!; [done | done |].
  rewrite (run_outcome E u w f params opts b p Hentered), body_outcome, Ha.
  unfold engine_outcome. by rewrite Hctx, Hadage, Hexit.
Qed.

(** C1, as amended.  A run that entered the guarded region (the execution
    backend was set up and the publisher constructed) with a truthy
    publisher, and in which no step raises anything but instances of
    [Exception], returns normally and makes exactly one terminal publish
    call: FAILED (3) with "workflow failed: " followed by the message of the
    exception, when a step of the guarded body raises; FINISHED (2), when
    the body, and so the engine call, returns normally.  (An exception that
    is not an instance of [Exception] leaves the call at once, with no
    terminal publish.) *)
Theorem exactly_one_terminal_publish_when_guarded :
  Publisher.truthy p = true ->
  match outcome (body E p b u w f params opts) with
  | Ok _ =>
      terminal_publishes (trace (run_yadage_workflow E u w f params opts)) =
        [finished_event u] /\
      outcome (run_yadage_workflow E u w f params opts) = Ok tt
  | Raise e =>
      terminal_publishes (trace (run_yadage_workflow E u w f params opts)) =
        [failed_event u e] /\
      outcome (run_yadage_workflow E u w f params opts) = Ok tt
  | Escape k =>
      terminal_publishes (trace (run_yadage_workflow E u w f params opts)) = [] /\
      outcome (run_yadage_workflow E u w f params opts) = Escape k
  end.
Proof.
  intros Htruthy.
  rewrite (run_outcome E u w f params opts b p Hentered).
  unfold terminal_publishes. rewrite body_outcome.
  destruct (outcome (prepare E b w f params opts)) as [a|e|k] eqn:Hprep.
  - rewrite (run_publishes_prepared a Hprep), Htruthy. unfold engine_outcome.
    destruct (steering_ctx E a) as [[]|?|?]; [|done|done]. cbn [mbind result_bind].
    destruct (adage_argument E u) as [[]|?|?]; [|done|done]. cbn [mbind result_bind].
    by destruct (steering_ctx_exit E) as [[]|?|?].
  - by rewrite (run_publishes_prepare_raises e Hprep), Htruthy.
  - by rewrite (run_publishes_prepare_escapes k Hprep).
Qed.

End StatusSequences.

(** ** The merge of the initial data *)

Lemma overlay_files_lookup contents k :
  overlay_files contents !! k = last_binding k contents.
Proof.
  induction contents as [|m rest IH]; cbn [overlay_files last_binding].
  - apply lookup_empty.
  - rewrite lookup_union, IH. destruct (last_binding k rest), (m !! k); done.
Qed.

Lemma overlay_lookup contents parameters k :
  overlay contents parameters !! k = precedence_lookup contents parameters k.
Proof.
  unfold overlay, precedence_lookup. rewrite lookup_union, overlay_files_lookup.
  destruct (parameters !! k), (last_binding k contents); done.
Qed.

Lemma foldl_dict_update contents (acc : dict) :
  foldl dict_update acc contents = overlay_files contents ∪ acc.
Proof.
  revert acc. induction contents as [|m rest IH]; intros acc; cbn [foldl overlay_files].
  - by rewrite (left_id_L ∅ (∪)).
  - rewrite IH. unfold dict_update. by rewrite (assoc_L (∪)).
Qed.

Section Merge.
Variable E : Env.

Lemma load_initfiles_loaded (files : list json) (contents : list dict) (acc : dict) :
  Forall2 (fun file m => yaml_safe_load_open E file = Ok (YMapping m)) files contents ->
  load_initfiles E files acc = (EvOpen <$> files, Ok (foldl dict_update acc contents)).
Proof.
  intros H. revert acc. induction H as [|file m files contents Hfile _ IH]; intros acc.
  - done.
  - cbn [load_initfiles]. rewrite Hfile. unfold call, lift. cbn [mbind M_bind kwargs].
    rewrite IH. done.
Qed.

(** C4.  When every init file loads as a mapping, the merged initial data
    is the overlay of the files' mappings in list order with the parameters
    overlaid last: a key bound by the parameters takes their value, any other
    key the value of the last file that binds it; the files are opened in
    list order. *)
Theorem initdata_merge_precedence
    (files : list string) (contents : list dict) (parameters : dict) :
  Forall2 (fun file m => yaml_safe_load_open E (JStr file) = Ok (YMapping m))
          files contents ->
  outcome (merge_initdata E (JStrs files) (Some parameters)) =
    Ok (overlay contents parameters) /\
  (forall k, overlay contents parameters !! k =
             precedence_lookup contents parameters k) /\
  opened (trace (merge_initdata E (JStrs files) (Some parameters))) = JStr <$> files.
Proof.
  intros H.
  assert (merge_initdata E (JStrs files) (Some parameters) =
          (EvOpen <$> (JStr <$> files), Ok (overlay contents parameters))) as ->.
  { unfold merge_initdata, JStrs. cbn [py_iter lift mbind M_bind].
    rewrite (load_initfiles_loaded (JStr <$> files) contents ∅)
      by by apply Forall2_fmap_l.
    cbn [update_with_parameters mbind M_bind lift app]. rewrite app_nil_r. f_equal. f_equal.
    unfold dict_update at 1, overlay. rewrite foldl_dict_update.
    by rewrite (right_id_L ∅ (∪)). }
  split_and!; [done | apply overlay_lookup |].
  cbn [trace fst]. generalize (JStr <$> files). intros l.
  induction l as [|x l IH]; [done|]. simpl. f_equal. exact IH.
Qed.
End Merge.

(** ** Failures of the status channel *)

Section TraceInvariant.
Variable P : list event -> Prop.
Hypothesis P_nil : P [].
Hypothesis P_app : forall t1 t2, P t1 -> P t2 -> P (t1 ++ t2).

Lemma invariant_bind {A B} (m : M A) (f : A -> M B) :
  P (trace m) -> (forall a, P (trace (f a))) -> P (trace (m ≫= f)).
Proof.
  intros Hm Hf. rewrite trace_bind. apply P_app; [done|].
  destruct (outcome m); [apply Hf | apply P_nil | apply P_nil].
Qed.

Lemma invariant_try_except {A} (m : M A) (h : exn -> M A) :
  P (trace m) -> (forall e, P (trace (h e))) -> P (trace (try_except m h)).
Proof.
  intros Hm Hh. rewrite trace_try_except. apply P_app; [done|].
  destruct (outcome m); [apply P_nil | apply Hh | apply P_nil].
Qed.
End TraceInvariant.

Lemma failures_logged_nil p : failures_logged p [].
Proof. intros u s l e H. by apply elem_of_nil in H. Qed.

Lemma failures_logged_app p t1 t2 :
  failures_logged p t1 -> failures_logged p t2 -> failures_logged p (t1 ++ t2).
Proof.
  intros H1 H2 u s l e Hin Hd. apply elem_of_app.
  apply elem_of_app in Hin as [Hin | Hin]; [left; eauto | right; eauto].
Qed.

Lemma failures_logged_silent p t : publishes t = [] -> failures_logged p t.
Proof.
  intros Hnone u s l e Hin _.
  assert ((u, s, l) ∈ publishes t) as Hp.
  { apply list_elem_of_omap. by exists (EvPublish u s l). }
  rewrite Hnone in Hp. by apply elem_of_nil in Hp.
Qed.

Lemma failures_logged_publish p u s l :
  failures_logged p (trace (Publisher.publish_workflow_status p u s l)).
Proof.
  unfold Publisher.publish_workflow_status.
  destruct (Publisher.deliver p u s l) as [[]|e0|e0] eqn:Hd; cbn; intros u' s' l' e Hin Hd'.
  - apply elem_of_cons in Hin as [[= -> -> ->] | Hin]; [congruence|].
    apply elem_of_cons in Hin as [? | Hin]; [done | by apply elem_of_nil in Hin].
  - apply elem_of_cons in Hin as [[= -> -> ->] | Hin].
    + rewrite Hd in Hd'. injection Hd' as <-. apply elem_of_cons. right. apply elem_of_cons. by left.
    + apply elem_of_cons in Hin as [? | Hin]; [done | by apply elem_of_nil in Hin].
  - apply elem_of_cons in Hin as [[= -> -> ->] | Hin]; [congruence|].
    apply elem_of_cons in Hin as [? | Hin]; [done | by apply elem_of_nil in Hin].
Qed.

Lemma without_delivery_records_app t1 t2 :
  without_delivery_records (t1 ++ t2) =
  (without_delivery_records t1 ++ without_delivery_records t2)%list.
Proof. apply List.filter_app. Qed.

Lemma publish_without_delivery_records p u s l :
  without_delivery_records (trace (Publisher.publish_workflow_status p u s l)) =
  [EvPublish u s l].
Proof.
  unfold Publisher.publish_workflow_status.
  destruct (Publisher.deliver p u s l) as [[]|e|e]; [done| |];
    cbn [emit log mbind M_bind trace fst app];
    unfold without_delivery_records; cbn [List.filter delivery_record negb];
    unfold startswith; by rewrite prefix_refl_app.
Qed.

Section Delivery.
Variable E : Env.
Variables (u w f : string) (params : option dict) (opts : dict).

Lemma execution_failures_logged p ws a :
  failures_logged p (trace (execution E p u ws a)).
Proof.
  unfold execution.
  repeat first
    [ apply failures_logged_publish
    | apply failures_logged_silent; reflexivity
    | apply (invariant_bind _ (failures_logged_nil p) (failures_logged_app p));
      [|intros ?] ].
Qed.

Lemma handler_failures_logged p e :
  failures_logged p (trace (failure_handler p u e)).
Proof.
  unfold failure_handler.
  apply (invariant_bind _ (failures_logged_nil p) (failures_logged_app p));
    [by apply failures_logged_silent|intros ?].
  destruct (Publisher.truthy p);
    [apply failures_logged_publish | by apply failures_logged_silent].
Qed.

Lemma run_failures_logged b p :
  entered E b p ->
  failures_logged p (trace (run_yadage_workflow E u w f params opts)).
Proof.
  intros H. rewrite (run_entered E u w f params opts b p H). cbn [trace fst].
  apply failures_logged_app; [by apply failures_logged_silent|].
  apply (invariant_try_except _ (failures_logged_nil p) (failures_logged_app p));
    [|intros e; apply handler_failures_logged].
  unfold body, guarded_body.
  apply (invariant_bind _ (failures_logged_nil p) (failures_logged_app p)).
  - apply failures_logged_silent, (quiet_publishes _ (prepare_quiet E w f params opts b)).
  - intros a. apply execution_failures_logged.
Qed.

Lemma execution_without_delivery_records p p' ws a :
  without_delivery_records (trace (execution E p u ws a)) =
  without_delivery_records (trace (execution E p' u ws a)).
Proof.
  unfold execution.
  rewrite !trace_bind, !publish_outcome. cbn [call log emit outcome snd].
  destruct (steering_ctx E a); [|done|done].
  destruct (adage_argument E u), (steering_ctx_exit E);
    rewrite !without_delivery_records_app, !publish_without_delivery_records; done.
Qed.

Lemma handler_without_delivery_records p p' e :
  Publisher.truthy p' = Publisher.truthy p ->
  without_delivery_records (trace (failure_handler p u e)) =
  without_delivery_records (trace (failure_handler p' u e)).
Proof.
  intros Ht. unfold failure_handler. rewrite Ht.
  rewrite !trace_bind, !without_delivery_records_app. cbn [log emit outcome snd].
  destruct (Publisher.truthy p); [|done].
  by rewrite !publish_without_delivery_records.
Qed.

Lemma run_without_delivery_records b p p' :
  entered E b p ->
  Publisher.truthy p' = Publisher.truthy p ->
  without_delivery_records
    (trace (run_yadage_workflow (with_publisher (Ok p') E) u w f params opts)) =
  without_delivery_records (trace (run_yadage_workflow E u w f params opts)) /\
  outcome (run_yadage_workflow (with_publisher (Ok p') E) u w f params opts) =
  outcome (run_yadage_workflow E u w f params opts).
Proof.
  intros H Ht.
  assert (entered (with_publisher (Ok p') E) b p') as H' by (destruct H; by split).
  split.
  - rewrite (run_entered E u w f params opts b p H).
    rewrite (run_entered _ u w f params opts b p' H'). cbn [trace fst].
    rewrite !without_delivery_records_app. f_equal.
    rewrite !trace_try_except, !without_delivery_records_app.
    rewrite !body_outcome.
    change (prepare (with_publisher (Ok p') E) b w f params opts)
      with (prepare E b w f params opts).
    change (engine_outcome (with_publisher (Ok p') E) u)
      with (engine_outcome E u).
    f_equal.
    + unfold body, guarded_body. rewrite !trace_bind, !without_delivery_records_app.
      change (preparation (with_publisher (Ok p') E)) with (preparation E).
      f_equal. destruct (outcome (preparation E _ _ _ _ _ _)); [|done|done].
      change (workspace_path (with_publisher (Ok p') E) w) with (workspace_path E w).
      change (execution (with_publisher (Ok p') E)) with (execution E).
      apply execution_without_delivery_records.
    + destruct (outcome (prepare E b w f params opts)) as [a|e|k];
        [|by apply handler_without_delivery_records|done].
      destruct (engine_outcome E u a);
        [done | by apply handler_without_delivery_records | done].
  - by rewrite (run_outcome E u w f params opts b p H),
               (run_outcome _ u w f params opts b p' H'), !body_outcome.
Qed.
End Delivery.

Lemma loader_calls_app t1 t2 :
  loader_calls (t1 ++ t2) = (loader_calls t1 ++ loader_calls t2)%list.
Proof. apply omap_app. Qed.

Section RunReports.
Variable E : Env.
Variables (u w f : string) (params : option dict) (opts : dict).

Lemma run_backend_fails e :
  setupbackend_fromstring E "fromenv" = Raise e ->
  run_yadage_workflow E u w f params opts =
  ([ EvLog INFO "getting socket..";
     EvSetenv "workflow_uuid" u;
     EvSetenv "workflow_workspace" (workspace_path E w);
     EvUmask (REANA_WORKFLOW_UMASK E);
     EvSetupBackend "fromenv" ], Raise e).
Proof. intros H. unfold run_yadage_workflow, log, emit, call. by rewrite H. Qed.

Lemma run_publisher_fails b e :
  setupbackend_fromstring E "fromenv" = Ok b ->
  REANAWorkflowStatusPublisher E = Raise e ->
  run_yadage_workflow E u w f params opts = (prelude E u w, Raise e).
Proof. intros Hb Hp. unfold run_yadage_workflow, log, emit, call. by rewrite Hb, Hp. Qed.

Lemma run_backend_escapes e :
  setupbackend_fromstring E "fromenv" = Escape e ->
  run_yadage_workflow E u w f params opts =
  ([ EvLog INFO "getting socket..";
     EvSetenv "workflow_uuid" u;
     EvSetenv "workflow_workspace" (workspace_path E w);
     EvUmask (REANA_WORKFLOW_UMASK E);
     EvSetupBackend "fromenv" ], Escape e).
Proof. intros H. unfold run_yadage_workflow, log, emit, call. by rewrite H. Qed.

Lemma run_publisher_escapes b e :
  setupbackend_fromstring E "fromenv" = Ok b ->
  REANAWorkflowStatusPublisher E = Escape e ->
  run_yadage_workflow E u w f params opts = (prelude E u w, Escape e).
Proof. intros Hb Hp. unfold run_yadage_workflow, log, emit, call. by rewrite Hb, Hp. Qed.

Lemma handler_loader_calls p e : loader_calls (trace (failure_handler p u e)) = [].
Proof.
  handler_cases p.
Qed.

(** C7, as amended.  In a run that entered the guarded region (the
    execution backend was set up and the publisher constructed) with a
    truthy publisher: when the workflow spec file does not exist at the
    resolved absolute path, the existence check finds it out and the spec
    loader is not called; the run publishes exactly one event, FAILED, whose
    message names the workflow file, and no RUNNING, and it returns. *)
Theorem missing_spec_file_reported b p :
  entered E b p ->
  Publisher.truthy p = true ->
  os_path_exists E (os_path_join (workspace_path E w) f) = false ->
  publishes (trace (run_yadage_workflow E u w f params opts)) =
    [(u, 3, Some ("workflow failed: Workflow file " +:+ f +:+ " does not exist"))] /\
  loader_calls (trace (run_yadage_workflow E u w f params opts)) = [] /\
  EvExists (os_path_join (workspace_path E w) f)
    ∈ trace (run_yadage_workflow E u w f params opts) /\
  outcome (run_yadage_workflow E u w f params opts) = Ok tt.
Proof.
  intros Hentered Htruthy Hmissing.
  pose proof (prepare_spec_missing E w f params opts b Hmissing) as Hprep.
  assert (body E p b u w f params opts =
          ([EvExists (os_path_join (workspace_path E w) f)],
           Raise (Exn "Exception" ("Workflow file " +:+ f +:+ " does not exist"))))
    as Hbody.
  { unfold body, guarded_body. fold (prepare E b w f params opts). by rewrite Hprep. }
  split_and!.
  - rewrite (run_publishes_prepare_raises E u w f params opts b p Hentered
               (Exn "Exception" ("Workflow file " +:+ f +:+ " does not exist")))
      by by rewrite Hprep.
    by rewrite Htruthy.
  - rewrite (run_entered E u w f params opts b p Hentered). cbn [trace fst].
    rewrite loader_calls_app, trace_try_except, loader_calls_app, Hbody.
    cbn [trace outcome fst snd]. by rewrite handler_loader_calls.
  - rewrite (run_entered E u w f params opts b p Hentered). cbn [trace fst].
    rewrite trace_try_except, Hbody. cbn [trace fst].
    apply elem_of_app. right. apply elem_of_app. left. apply list_elem_of_singleton. done.
  - by rewrite (run_outcome E u w f params opts b p Hentered), Hbody.
Qed.

(** C10.  Whenever the engine is invoked, its [accept_metadir] argument is
    true exactly when the key "accept_metadir" is present in the operational
    options, whatever value is stored under it. *)
Theorem accept_metadir_iff_key_present (a : SteeringArgs) :
  a ∈ engine_calls (trace (run_yadage_workflow E u w f params opts)) ->
  accept_metadir a = true <-> is_Some (opts !! "accept_metadir").
Proof.
  intros Hin.
  assert (accept_metadir a = contains opts "accept_metadir") as ->.
  { destruct (setupbackend_fromstring E "fromenv") as [b|e|e] eqn:Hb.
    2:{ rewrite (run_backend_fails e Hb) in Hin. by apply elem_of_nil in Hin. }
    2:{ rewrite (run_backend_escapes e Hb) in Hin. by apply elem_of_nil in Hin. }
    destruct (REANAWorkflowStatusPublisher E) as [p|e|e] eqn:Hp.
    2:{ rewrite (run_publisher_fails b e Hb Hp) in Hin. by apply elem_of_nil in Hin. }
    2:{ rewrite (run_publisher_escapes b e Hb Hp) in Hin. by apply elem_of_nil in Hin. }
    rewrite (run_entered E u w f params opts b p (conj Hb Hp)) in Hin.
    cbn [trace fst] in Hin.
    rewrite engine_calls_app, trace_try_except, engine_calls_app in Hin.
    rewrite body_engine_calls in Hin.
    change (engine_calls (prelude E u w)) with (@nil SteeringArgs) in Hin.
    rewrite app_nil_l in Hin.
    assert (engine_calls
              match outcome (body E p b u w f params opts) with
              | Raise e => trace (failure_handler p u e)
              | _ => []
              end = []) as Hh.
    { destruct (outcome (body E p b u w f params opts)); [done| |done].
      apply handler_engine_calls. }
    rewrite Hh, app_nil_r in Hin.
    destruct (outcome (prepare E b w f params opts)) as [a'| |] eqn:Hprep;
      [|by apply elem_of_nil in Hin|by apply elem_of_nil in Hin].
    apply list_elem_of_singleton in Hin as ->.
    by eapply prepare_accept_metadir. }
  unfold contains. apply bool_decide_eq_true.
Qed.

(** C5.  Once the publisher is constructed, how the run ends does not
    depend on the status channel: it returns normally, unless a step of the
    preparation or the engine itself lets through an exception that is not
    an instance of [Exception]; each publish call whose delivery fails
    leaves an error record in the log; and apart from the records that tell
    whether a delivery worked, the run is the same under any other channel
    behaviour, for the RUNNING, FINISHED and FAILED events alike. *)
Theorem publish_failure_contained b p :
  entered E b p ->
  outcome (run_yadage_workflow E u w f params opts) =
    match outcome (prepare E b w f params opts) with
    | Ok a => match engine_outcome E u a with Escape k => Escape k | _ => Ok tt end
    | Raise _ => Ok tt
    | Escape k => Escape k
    end /\
  (forall u' s l e,
     EvPublish u' s l ∈ trace (run_yadage_workflow E u w f params opts) ->
     Publisher.deliver p u' s l = Raise e ->
     EvLog ERROR ("Status publish failed: " +:+ exn_str e)
       ∈ trace (run_yadage_workflow E u w f params opts)) /\
  (forall p',
     Publisher.truthy p' = Publisher.truthy p ->
     without_delivery_records
       (trace (run_yadage_workflow (with_publisher (Ok p') E) u w f params opts)) =
     without_delivery_records (trace (run_yadage_workflow E u w f params opts)) /\
     outcome (run_yadage_workflow (with_publisher (Ok p') E) u w f params opts) =
     outcome (run_yadage_workflow E u w f params opts)).
Proof.
  intros H. split_and!.
  - rewrite (run_outcome E u w f params opts b p H), body_outcome.
    destruct (outcome (prepare E b w f params opts)) as [a| |]; [|done|done].
    by destruct (engine_outcome E u a).
  - exact (run_failures_logged E u w f params opts b p H).
  - intros p' Ht. by eapply run_without_delivery_records.
Qed.

(** The fallback branch of the handler, taken in isolation. *)
Lemma fallback_logs_and_returns p e :
  Publisher.truthy p = false ->
  failure_handler p u e =
  ([ EvLog ERROR ("Workflow failed: " +:+ exn_str e);
     EvLog ERROR ("Workflow " +:+ u +:+ " failed but status could not be published.") ],
   Ok tt).
Proof. intros H. unfold failure_handler. by rewrite H. Qed.

End RunReports.

(** ** The sample installation at work *)

Lemma sample_entered : entered Sample.env (BackendHandle 0) Sample.publisher.
Proof. by split. Qed.

Lemma sample_prepared :
  outcome (prepare Sample.env (BackendHandle 0) "ws" "workflow.yml"
             (Some Sample.parameters) Sample.options) = Ok Sample.args.
Proof. vm_compute. reflexivity. Qed.

Lemma successful_run_status_sequence_witness :
  publishes (trace (run_yadage_workflow Sample.env "uuid" "ws" "workflow.yml"
                      (Some Sample.parameters) Sample.options)) =
    [running_event "uuid"; finished_event "uuid"] /\
  statuses (trace (run_yadage_workflow Sample.env "uuid" "ws" "workflow.yml"
                     (Some Sample.parameters) Sample.options)) = [1; 2] /\
  outcome (run_yadage_workflow Sample.env "uuid" "ws" "workflow.yml"
             (Some Sample.parameters) Sample.options) = Ok tt.
Proof.
  apply (successful_run_status_sequence Sample.env "uuid" "ws" "workflow.yml"
           (Some Sample.parameters) Sample.options (BackendHandle 0) Sample.publisher
           sample_entered Sample.args sample_prepared);
    reflexivity.
Defined.

Lemma sample_body :
  outcome (body Sample.env Sample.publisher (BackendHandle 0) "uuid" "ws" "workflow.yml"
             (Some Sample.parameters) Sample.options) = Ok tt.
Proof. vm_compute. reflexivity. Qed.

Lemma engine_fails_entered :
  entered Sample.env_engine_fails (BackendHandle 0) Sample.publisher.
Proof. by split. Qed.

Lemma engine_fails_prepared :
  outcome (prepare Sample.env_engine_fails (BackendHandle 0) "ws" "workflow.yml"
             (Some Sample.parameters) Sample.options) = Ok Sample.args.
Proof. vm_compute. reflexivity. Qed.

Lemma engine_fails_body :
  outcome (body Sample.env_engine_fails Sample.publisher (BackendHandle 0) "uuid" "ws"
             "workflow.yml" (Some Sample.parameters) Sample.options) =
  Raise Sample.engine_error.
Proof. vm_compute. reflexivity. Qed.

Lemma interrupted_entered :
  entered Sample.env_interrupted (BackendHandle 0) Sample.publisher.
Proof. by split. Qed.

Lemma interrupted_body :
  outcome (body Sample.env_interrupted Sample.publisher (BackendHandle 0) "uuid" "ws"
             "workflow.yml" (Some Sample.parameters) Sample.options) =
  Escape Sample.interrupt.
Proof. vm_compute. reflexivity. Qed.

Lemma exactly_one_terminal_publish_when_guarded_witness :
  (terminal_publishes
     (trace (run_yadage_workflow Sample.env "uuid" "ws" "workflow.yml"
               (Some Sample.parameters) Sample.options)) = [finished_event "uuid"] /\
   outcome (run_yadage_workflow Sample.env "uuid" "ws" "workflow.yml"
              (Some Sample.parameters) Sample.options) = Ok tt) /\
  (terminal_publishes
     (trace (run_yadage_workflow Sample.env_engine_fails "uuid" "ws" "workflow.yml"
               (Some Sample.parameters) Sample.options)) =
     [failed_event "uuid" Sample.engine_error] /\
   outcome (run_yadage_workflow Sample.env_engine_fails "uuid" "ws" "workflow.yml"
              (Some Sample.parameters) Sample.options) = Ok tt) /\
  (terminal_publishes
     (trace (run_yadage_workflow Sample.env_interrupted "uuid" "ws" "workflow.yml"
               (Some Sample.parameters) Sample.options)) = [] /\
   outcome (run_yadage_workflow Sample.env_interrupted "uuid" "ws" "workflow.yml"
              (Some Sample.parameters) Sample.options) = Escape Sample.interrupt).
Proof.
  split_and!.
  - pose proof (exactly_one_terminal_publish_when_guarded Sample.env "uuid" "ws"
                  "workflow.yml" (Some Sample.parameters) Sample.options
                  (BackendHandle 0) Sample.publisher sample_entered eq_refl) as H.
    rewrite sample_body in H. exact (proj1 H).
  - pose proof (exactly_one_terminal_publish_when_guarded Sample.env "uuid" "ws"
                  "workflow.yml" (Some Sample.parameters) Sample.options
                  (BackendHandle 0) Sample.publisher sample_entered eq_refl) as H.
    rewrite sample_body in H. exact (proj2 H).
  - pose proof (exactly_one_terminal_publish_when_guarded Sample.env_engine_fails "uuid"
                  "ws" "workflow.yml" (Some Sample.parameters) Sample.options
                  (BackendHandle 0) Sample.publisher engine_fails_entered eq_refl) as H.
    rewrite engine_fails_body in H. exact (proj1 H).
  - pose proof (exactly_one_terminal_publish_when_guarded Sample.env_engine_fails "uuid"
                  "ws" "workflow.yml" (Some Sample.parameters) Sample.options
                  (BackendHandle 0) Sample.publisher engine_fails_entered eq_refl) as H.
    rewrite engine_fails_body in H. exact (proj2 H).
  - pose proof (exactly_one_terminal_publish_when_guarded Sample.env_interrupted "uuid"
                  "ws" "workflow.yml" (Some Sample.parameters) Sample.options
                  (BackendHandle 0) Sample.publisher interrupted_entered eq_refl) as H.
    rewrite interrupted_body in H. exact (proj1 H).
  - pose proof (exactly_one_terminal_publish_when_guarded Sample.env_interrupted "uuid"
                  "ws" "workflow.yml" (Some Sample.parameters) Sample.options
                  (BackendHandle 0) Sample.publisher interrupted_entered eq_refl) as H.
    rewrite interrupted_body in H. exact (proj2 H).
Defined.

(** C1 as stated does not hold: when no execution backend can be set up the
    call raises before the guarded region, and no terminal status is
    published at all. *)
Lemma terminal_publish_missing_without_backend :
  terminal_publishes
    (trace (run_yadage_workflow Sample.env_no_backend "uuid" "ws" "workflow.yml"
              (Some Sample.parameters) Sample.options)) = [] /\
  length (terminal_publishes
    (trace (run_yadage_workflow Sample.env_no_backend "uuid" "ws" "workflow.yml"
              (Some Sample.parameters) Sample.options))) <> 1%nat /\
  outcome (run_yadage_workflow Sample.env_no_backend "uuid" "ws" "workflow.yml"
             (Some Sample.parameters) Sample.options) =
    Raise (Exn "ValueError" "unknown backend").
Proof. split_and!; [reflexivity | vm_compute; discriminate | reflexivity]. Qed.

Lemma missing_spec_prepare :
  outcome (prepare Sample.env (BackendHandle 0) "ws" "missing.yml"
             (Some Sample.parameters) Sample.options) =
  Raise (Exn "Exception" "Workflow file missing.yml does not exist").
Proof. vm_compute. reflexivity. Qed.

Lemma missing_initfile_prepare :
  outcome (prepare Sample.env (BackendHandle 0) "ws" "workflow.yml"
             (Some Sample.parameters) Sample.options_missing_initfile) =
  Raise (Exn "FileNotFoundError" "No such file or directory").
Proof. vm_compute. reflexivity. Qed.

Lemma controller_down_entered :
  entered Sample.env_controller_down (BackendHandle 0) Sample.publisher.
Proof. by split. Qed.

Lemma controller_down_prepare :
  outcome (prepare Sample.env_controller_down (BackendHandle 0) "ws" "workflow.yml"
             (Some Sample.parameters) Sample.options) = Raise Sample.controller_error.
Proof. vm_compute. reflexivity. Qed.

Lemma failed_run_status_sequence_witness :
  statuses (trace (run_yadage_workflow Sample.env "uuid" "ws" "missing.yml"
                     (Some Sample.parameters) Sample.options)) = [3] /\
  statuses (trace (run_yadage_workflow Sample.env "uuid" "ws" "workflow.yml"
                     (Some Sample.parameters) Sample.options_missing_initfile)) = [3] /\
  statuses (trace (run_yadage_workflow Sample.env_controller_down "uuid" "ws"
                     "workflow.yml" (Some Sample.parameters) Sample.options)) = [3] /\
  publishes (trace (run_yadage_workflow Sample.env_engine_fails "uuid" "ws"
                      "workflow.yml" (Some Sample.parameters) Sample.options)) =
    [running_event "uuid"; failed_event "uuid" Sample.engine_error] /\
  statuses (trace (run_yadage_workflow Sample.env_engine_fails "uuid" "ws"
                     "workflow.yml" (Some Sample.parameters) Sample.options)) = [1; 3].
Proof.
  split_and!.
  - destruct (proj1 (failed_run_status_sequence Sample.env "uuid" "ws" "missing.yml"
                       (Some Sample.parameters) Sample.options (BackendHandle 0)
                       Sample.publisher sample_entered eq_refl)) as (e & _ & _ & H).
    + apply spec_file_missing. reflexivity.
    + exact (raise_not_escapes _ _ missing_spec_prepare).
    + exact H.
  - destruct (proj1 (failed_run_status_sequence Sample.env "uuid" "ws" "workflow.yml"
                       (Some Sample.parameters) Sample.options_missing_initfile
                       (BackendHandle 0) Sample.publisher sample_entered eq_refl))
      as (e & _ & _ & H).
    + apply (init_file_unreadable _ _ _ _ (JStrs ["a.yaml"; "c.yaml"])
               [JStr "a.yaml"; JStr "c.yaml"] (JStr "c.yaml"));
        [reflexivity | reflexivity | | reflexivity].
      apply list_elem_of_further, list_elem_of_here.
    + exact (raise_not_escapes _ _ missing_initfile_prepare).
    + exact H.
  - destruct (proj1 (failed_run_status_sequence Sample.env_controller_down "uuid" "ws"
                       "workflow.yml" (Some Sample.parameters) Sample.options
                       (BackendHandle 0) Sample.publisher controller_down_entered
                       eq_refl)) as (e & _ & _ & H).
    + apply (job_controller_unreachable _ _ _ _ Sample.controller_error). reflexivity.
    + exact (raise_not_escapes _ _ controller_down_prepare).
    + exact H.
  - apply (proj2 (failed_run_status_sequence Sample.env_engine_fails "uuid" "ws"
                    "workflow.yml" (Some Sample.parameters) Sample.options
                    (BackendHandle 0) Sample.publisher engine_fails_entered eq_refl)
             Sample.args Sample.engine_error engine_fails_prepared).
    split; [reflexivity | right; split; reflexivity].
  - apply (proj2 (failed_run_status_sequence Sample.env_engine_fails "uuid" "ws"
                    "workflow.yml" (Some Sample.parameters) Sample.options
                    (BackendHandle 0) Sample.publisher engine_fails_entered eq_refl)
             Sample.args Sample.engine_error engine_fails_prepared).
    split; [reflexivity | right; split; reflexivity].
Defined.

(** C2 as stated does not hold.  With a missing spec file in an installation
    where no execution backend can be set up, the call raises before the
    guarded region and no status is published at all; and when the engine
    run is interrupted from the keyboard after RUNNING was published, the
    handler of the guarded region, which catches instances of [Exception]
    only, is passed by and RUNNING stays the only status. *)
Lemma failed_status_not_always_published :
  (os_path_exists Sample.env_no_backend
     (os_path_join (workspace_path Sample.env_no_backend "ws") "missing.yml") = false /\
   statuses (trace (run_yadage_workflow Sample.env_no_backend "uuid" "ws" "missing.yml"
                      (Some Sample.parameters) Sample.options)) = [] /\
   statuses (trace (run_yadage_workflow Sample.env_no_backend "uuid" "ws" "missing.yml"
                      (Some Sample.parameters) Sample.options)) <> [3]) /\
  (outcome (prepare Sample.env_interrupted (BackendHandle 0) "ws" "workflow.yml"
              (Some Sample.parameters) Sample.options) = Ok Sample.args /\
   steering_ctx Sample.env_interrupted Sample.args = Ok tt /\
   adage_argument Sample.env_interrupted "uuid" = Escape Sample.interrupt /\
   statuses (trace (run_yadage_workflow Sample.env_interrupted "uuid" "ws"
                      "workflow.yml" (Some Sample.parameters) Sample.options)) = [1] /\
   statuses (trace (run_yadage_workflow Sample.env_interrupted "uuid" "ws"
                      "workflow.yml" (Some Sample.parameters) Sample.options)) <> [1; 3] /\
   outcome (run_yadage_workflow Sample.env_interrupted "uuid" "ws" "workflow.yml"
              (Some Sample.parameters) Sample.options) = Escape Sample.interrupt).
Proof.
  split; split_and!;
    first [ vm_compute; reflexivity | vm_compute; discriminate ].
Qed.

Lemma initdata_merge_precedence_witness :
  outcome (merge_initdata Sample.env (JStrs ["a.yaml"; "b.yaml"])
             (Some Sample.parameters)) = Ok Sample.merged.
Proof.
  destruct (initdata_merge_precedence Sample.env ["a.yaml"; "b.yaml"]
              [Sample.a_yaml; Sample.b_yaml] Sample.parameters) as [H _].
  { repeat constructor. }
  etrans; [exact H | vm_compute; reflexivity].
Defined.

Lemma missing_spec_file_reported_witness :
  publishes (trace (run_yadage_workflow Sample.env "uuid" "ws" "missing.yml"
                      (Some Sample.parameters) Sample.options)) =
    [("uuid", 3, Some "workflow failed: Workflow file missing.yml does not exist")] /\
  loader_calls (trace (run_yadage_workflow Sample.env "uuid" "ws" "missing.yml"
                         (Some Sample.parameters) Sample.options)) = [].
Proof.
  destruct (missing_spec_file_reported Sample.env "uuid" "ws" "missing.yml"
              (Some Sample.parameters) Sample.options (BackendHandle 0)
              Sample.publisher sample_entered eq_refl eq_refl) as (H1 & H2 & _).
  split; [exact H1 | exact H2].
Defined.

(** C7 as stated does not hold: with the spec file missing in an
    installation where no execution backend can be set up, the call raises
    before the guarded region, the existence check is never made and no
    FAILED event is published. *)
Lemma missing_spec_file_unreported_without_backend :
  os_path_exists Sample.env_no_backend
    (os_path_join (workspace_path Sample.env_no_backend "ws") "missing.yml") = false /\
  publishes (trace (run_yadage_workflow Sample.env_no_backend "uuid" "ws" "missing.yml"
                      (Some Sample.parameters) Sample.options)) = [] /\
  existence_checks (trace (run_yadage_workflow Sample.env_no_backend "uuid" "ws"
                             "missing.yml" (Some Sample.parameters) Sample.options)) = [] /\
  outcome (run_yadage_workflow Sample.env_no_backend "uuid" "ws" "missing.yml"
             (Some Sample.parameters) Sample.options) =
    Raise (Exn "ValueError" "unknown backend").
Proof. split_and!; vm_compute; reflexivity. Qed.

Lemma accept_metadir_iff_key_present_witness :
  Sample.options !! "accept_metadir" = Some (JBool false) /\
  (accept_metadir Sample.args = true <-> is_Some (Sample.options !! "accept_metadir")).
Proof.
  split; [reflexivity|].
  apply (accept_metadir_iff_key_present Sample.env "uuid" "ws" "workflow.yml"
           (Some Sample.parameters) Sample.options Sample.args).
  vm_compute. apply list_elem_of_here.
Defined.

Lemma deaf_entered : entered deaf_env (BackendHandle 0) Sample.deaf_publisher.
Proof. by split. Qed.

Lemma publish_failure_contained_witness :
  outcome (run_yadage_workflow deaf_env "uuid" "ws" "workflow.yml"
             (Some Sample.parameters) Sample.options) = Ok tt /\
  EvLog ERROR "Status publish failed: broker unreachable"
    ∈ trace (run_yadage_workflow deaf_env "uuid" "ws" "workflow.yml"
               (Some Sample.parameters) Sample.options).
Proof.
  destruct (publish_failure_contained deaf_env "uuid" "ws" "workflow.yml"
              (Some Sample.parameters) Sample.options (BackendHandle 0)
              Sample.deaf_publisher deaf_entered) as (H1 & H2 & _).
  split; [etrans; [exact H1 | vm_compute; reflexivity]|].
  apply (H2 "uuid" 1 None Sample.broker_error); [|reflexivity].
  vm_compute. repeat first [apply list_elem_of_here | apply list_elem_of_further].
Defined.

(** C6.  The publisher is constructed before the guarded region: when its
    construction fails, the error leaves [run_yadage_workflow], nothing is
    published and no error is logged, the fallback branch of the handler
    being out of reach. *)
Theorem publisher_construction_failure_escapes :
  let run := run_yadage_workflow (with_publisher (Raise Sample.broker_error) Sample.env)
               "uuid" "ws" "workflow.yml" (Some Sample.parameters) Sample.options in
  outcome run = Raise Sample.broker_error /\
  publishes (trace run) = [] /\
  error_logs (trace run) = [].
Proof. cbv zeta. split_and!; reflexivity. Qed.

(** * Further properties of the callbacks and of the run *)

(** ** The callback, on any decoded options *)

Lemma comprehension_is_ok root (l : list json) :
  is_ok (comprehension (os_path_join_json root) l) = forallb is_str l.
Proof.
  induction l as [|v l IH]; [done|]. cbn [comprehension forallb].
  destruct v; cbn [os_path_join_json mbind result_bind is_str andb]; try done.
  destruct (comprehension (os_path_join_json root) l); cbn in *; done.
Qed.

Lemma resolve_is_ok shared workspace (o : dict) :
  is_ok (resolve_operational_options shared workspace o) = well_typed_options o.
Proof.
  unfold resolve_operational_options, well_typed_options.
  destruct (o !! "toplevel") as [[]|] eqn:Ht; cbn [default from_option id mbind result_bind
    str_or_absent is_str andb is_ok]; try done;
  rewrite lookup_insert_ne by done;
  (destruct (o !! "initdir") as [[]|] eqn:Hd; cbn [default from_option id mbind result_bind
    os_path_join_json str_or_absent is_str andb is_ok]; try done);
  rewrite !lookup_insert_ne by done;
  (destruct (o !! "initfiles") as [v|] eqn:Hf; cbn [default from_option id strs_or_absent];
   [destruct (py_iter v) as [l| |]; cbn [mbind result_bind is_ok]; [|done|done]
   |cbn [py_iter mbind result_bind comprehension is_ok forallb]; done]);
  rewrite <- (comprehension_is_ok (format_slash shared workspace) l);
  destruct (comprehension _ l); done.
Qed.

Lemma result_bind_ok_inv {A B} (r : result A) (f : A -> result B) (b : B) :
  r ≫= f = Ok b -> exists a, r = Ok a /\ f a = Ok b.
Proof. destruct r as [a|e|e]; [eauto | done | done]. Qed.

Lemma comprehension_ok_strs root (l : list json) (fs : list string) :
  comprehension (os_path_join_json root) l = Ok fs ->
  exists names, l = JStr <$> names /\ fs = os_path_join root <$> names.
Proof.
  revert fs. induction l as [|v l IH]; intros fs H.
  - injection H as <-. by exists [].
  - cbn [comprehension] in H.
    apply result_bind_ok_inv in H as (y & Hy & H).
    apply result_bind_ok_inv in H as (ys & Hys & H). injection H as <-.
    destruct v; try done. injection Hy as <-.
    destruct (IH ys Hys) as (names & -> & ->). by exists (s :: names).
Qed.

Lemma comprehension_chars root (s : string) :
  comprehension (os_path_join_json root) (chars s) = Ok (os_path_join root <$> letters s).
Proof.
  unfold chars. apply comprehension_join.
Qed.

Lemma os_path_join_cases (a b : string) :
  if absolute b then os_path_join a b = b
  else startswith (os_path_join a b) a = true.
Proof.
  destruct (absolute b) eqn:Hb.
  - by apply os_path_join_absolute.
  - apply os_path_join_prefix. unfold relative. by rewrite Hb.
Qed.

(** X1.  The callback succeeds exactly when the option is given, its text
    decodes to an object, and the toplevel and initdir of that object are
    absent or strings and its initfiles absent or iterable over strings. *)
Theorem callback_succeeds_iff
    (shared : string) (decode : string -> result json)
    (ctx : Context) (value : option string) :
  is_ok (load_yadage_operational_options shared decode ctx value) = true <->
  exists text kv,
    value = Some text /\
    decode (slice_from_1 text) = Ok (JObj kv) /\
    well_typed_options (dict_of_pairs kv) = true.
Proof.
  unfold load_yadage_operational_options, load_json. split.
  - destruct value as [text|]; [|done].
    destruct (decode (slice_from_1 text)) as [[]| |] eqn:Hdec; try done.
    cbn [mbind result_bind as_dict]. rewrite resolve_is_ok. eauto.
  - intros (text & kv & -> & -> & H). cbn [mbind result_bind as_dict].
    by rewrite resolve_is_ok.
Qed.

(** X2.  A successful resolution binds the three path keys, to a string, a
    string and a list of strings, one per item of the initfiles given; it
    leaves every other key as it was, so a key such as "accept_metadir" is
    present afterwards exactly when it was before. *)
Theorem resolve_result_shape
    (shared : string) (workspace : option string) (o o' : dict) :
  resolve_operational_options shared workspace o = Ok o' ->
  (exists (t d : string) (fs : list string),
     o' !! "toplevel" = Some (JStr t) /\
     o' !! "initdir" = Some (JStr d) /\
     o' !! "initfiles" = Some (JStrs fs) /\
     (forall v items, o !! "initfiles" = Some v -> py_iter v = Ok items ->
                      length fs = length items)) /\
  (forall k, k <> "toplevel" -> k <> "initdir" -> k <> "initfiles" ->
             o' !! k = o !! k) /\
  contains o' "accept_metadir" = contains o "accept_metadir".
Proof.
  unfold resolve_operational_options. intros H.
  apply result_bind_ok_inv in H as (t & _ & H).
  apply result_bind_ok_inv in H as (d & _ & H).
  apply result_bind_ok_inv in H as (items & Hitems & H).
  apply result_bind_ok_inv in H as (fs & Hfs & H). injection H as <-.
  rewrite !lookup_insert_ne in Hitems by done.
  apply comprehension_ok_strs in Hfs as (names & -> & ->).
  split_and!.
  - eexists _, _, _. split_and!.
    + rewrite lookup_insert_ne, lookup_insert_ne by done. apply lookup_insert_eq.
    + rewrite lookup_insert_ne by done. apply lookup_insert_eq.
    + apply lookup_insert_eq.
    + intros v items Hv Hit. rewrite Hv in Hitems. cbn in Hitems.
      rewrite Hit in Hitems. injection Hitems as ->. by rewrite !length_fmap.
  - intros k ? ? ?. by rewrite !lookup_insert_ne.
  - unfold contains. by rewrite !lookup_insert_ne.
Qed.

(** X3.  An initfiles option that is one string instead of a list is taken
    character by character (a character of several bytes counts once):
    each character is joined to the workspace root with [os.path.join] as
    a path of its own, so that a "/" among them stays "/". *)
Theorem resolve_string_initfiles
    (shared : string) (workspace : option string) (o : dict) (s : string) :
  str_or_absent (o !! "toplevel") = true ->
  str_or_absent (o !! "initdir") = true ->
  o !! "initfiles" = Some (JStr s) ->
  exists o',
    resolve_operational_options shared workspace o = Ok o' /\
    o' !! "initfiles" =
      Some (JStrs (os_path_join (format_slash shared workspace) <$> letters s)).
Proof.
  intros Ht Hd Hf. unfold resolve_operational_options.
  destruct (o !! "toplevel") as [[]|]; try done;
    cbn [default from_option id mbind result_bind];
    rewrite lookup_insert_ne by done;
    (destruct (o !! "initdir") as [[]|]; try done);
    cbn [default from_option id mbind result_bind os_path_join_json];
    rewrite !lookup_insert_ne by done; rewrite Hf;
    cbn [default from_option id mbind result_bind py_iter];
    rewrite comprehension_chars; cbn [mbind result_bind];
    eexists; (split; [reflexivity | apply lookup_insert_eq]).
Qed.

(** X4.  Whatever mix of paths well-typed options hold, each resolved path is
    either the path given, when that is absolute (or, for the toplevel,
    starts with "github:"), or a path under the workspace root; so an
    absolute option points outside the workspace after resolution as it did
    before. *)
Theorem resolve_keeps_or_prefixes
    (shared : string) (workspace : option string) (o : dict)
    (toplevel initdir : option string) (initfiles : option (list string)) :
  o !! "toplevel" = JStr <$> toplevel ->
  o !! "initdir" = JStr <$> initdir ->
  o !! "initfiles" = JStrs <$> initfiles ->
  let root := format_slash shared workspace in
  exists (t' d' : string) (fs' : list string) (o' : dict),
    resolve_operational_options shared workspace o = Ok o' /\
    o' !! "toplevel" = Some (JStr t') /\
    o' !! "initdir" = Some (JStr d') /\
    o' !! "initfiles" = Some (JStrs fs') /\
    (if (startswith (default EmptyString toplevel) "github:"
         || absolute (default EmptyString toplevel))%bool
     then t' = default EmptyString toplevel
     else startswith t' root = true) /\
    (if absolute (default EmptyString initdir)
     then d' = default EmptyString initdir
     else startswith d' root = true) /\
    Forall2 (fun f f' => if absolute f then f' = f else startswith f' root = true)
            (default [] initfiles) fs'.
Proof.
  intros Ht Hd Hf root.
  eexists _, _, _, _. split; [by apply resolve_typed|]. fold root. split_and!.
  - rewrite lookup_insert_ne, lookup_insert_ne by done. apply lookup_insert_eq.
  - rewrite lookup_insert_ne by done. apply lookup_insert_eq.
  - apply lookup_insert_eq.
  - unfold resolve_toplevel.
    destruct (startswith (default EmptyString toplevel) "github:"); [done|].
    cbn [negb orb]. apply os_path_join_cases.
  - apply os_path_join_cases.
  - apply Forall2_fmap_r, Forall_Forall2_diag, Forall_forall.
    intros f _. apply os_path_join_cases.
Qed.

(** ** The run, outside the paths the status claims follow *)

Lemma error_logs_app t1 t2 :
  error_logs (t1 ++ t2) = (error_logs t1 ++ error_logs t2)%list.
Proof. apply omap_app. Qed.

Lemma loader_events_app t1 t2 :
  loader_events (t1 ++ t2) = (loader_events t1 ++ loader_events t2)%list.
Proof. apply omap_app. Qed.

Section RunEdges.
Variable E : Env.
Variables (u w f : string) (params : option dict) (opts : dict).

(** X5.  An error of the backend set-up or of the publisher construction leaves
    [run_yadage_workflow] as it is: nothing is published, nothing is logged
    as an error, and the workflow file is not even looked for. *)
Theorem errors_before_guard_escape (e : exn) :
  setupbackend_fromstring E "fromenv" = Raise e \/
  (is_ok (setupbackend_fromstring E "fromenv") = true /\
   REANAWorkflowStatusPublisher E = Raise e) ->
  outcome (run_yadage_workflow E u w f params opts) = Raise e /\
  publishes (trace (run_yadage_workflow E u w f params opts)) = [] /\
  error_logs (trace (run_yadage_workflow E u w f params opts)) = [] /\
  existence_checks (trace (run_yadage_workflow E u w f params opts)) = [].
Proof.
  intros [Hb | [Hb Hp]].
  - by rewrite (run_backend_fails E u w f params opts e Hb).
  - destruct (setupbackend_fromstring E "fromenv") as [b| |] eqn:Hb'; [|done|done].
    by rewrite (run_publisher_fails E u w f params opts b e Hb' Hp).
Qed.

Lemma run_engine_calls b p :
  entered E b p ->
  engine_calls (trace (run_yadage_workflow E u w f params opts)) =
  match outcome (prepare E b w f params opts) with
  | Ok a => [a]
  | _ => []
  end.
Proof.
  intros H. rewrite (run_entered E u w f params opts b p H). cbn [trace fst].
  rewrite engine_calls_app, trace_try_except, engine_calls_app, body_engine_calls.
  change (engine_calls (prelude E u w)) with (@nil SteeringArgs). rewrite app_nil_l.
  assert (engine_calls
            match outcome (body E p b u w f params opts) with
            | Raise e => trace (failure_handler p u e)
            | _ => []
            end = []) as ->.
  { destruct (outcome (body E p b u w f params opts)); [done| |done].
    apply handler_engine_calls. }
  by rewrite app_nil_r.
Qed.

Lemma run_never_prepared :
  (forall b, fails (prepare E b w f params opts)) ->
  engine_calls (trace (run_yadage_workflow E u w f params opts)) = [] /\
  statuses (trace (run_yadage_workflow E u w f params opts)) ∈ [[]; [3]].
Proof.
  intros Hf.
  destruct (setupbackend_fromstring E "fromenv") as [b|e|e] eqn:Hb.
  2:{ rewrite (run_backend_fails E u w f params opts e Hb).
      split; [done | apply list_elem_of_here]. }
  2:{ rewrite (run_backend_escapes E u w f params opts e Hb).
      split; [done | apply list_elem_of_here]. }
  destruct (REANAWorkflowStatusPublisher E) as [p|e|e] eqn:Hp.
  2:{ rewrite (run_publisher_fails E u w f params opts b e Hb Hp).
      split; [done | apply list_elem_of_here]. }
  2:{ rewrite (run_publisher_escapes E u w f params opts b e Hb Hp).
      split; [done | apply list_elem_of_here]. }
  specialize (Hf b). unfold fails in Hf.
  rewrite (run_engine_calls b p (conj Hb Hp)). unfold statuses.
  destruct (outcome (prepare E b w f params opts)) as [a|e|k] eqn:Hprep; [done| |].
  - rewrite (run_publishes_prepare_raises E u w f params opts b p (conj Hb Hp) e Hprep).
    split; [done|].
    destruct (Publisher.truthy p);
      [apply list_elem_of_further, list_elem_of_here | apply list_elem_of_here].
  - rewrite (run_publishes_prepare_escapes E u w f params opts b p (conj Hb Hp) k Hprep).
    split; [done | apply list_elem_of_here].
Qed.

Lemma run_failed_in_preparation b p :
  entered E b p ->
  Publisher.truthy p = true ->
  fails (prepare E b w f params opts) ->
  ~ escapes (prepare E b w f params opts) ->
  statuses (trace (run_yadage_workflow E u w f params opts)) = [3] /\
  outcome (run_yadage_workflow E u w f params opts) = Ok tt.
Proof.
  intros H Ht Hf Hesc. apply fails_raise in Hf as [e He]; [|done]. split.
  - unfold statuses.
    by rewrite (run_publishes_prepare_raises E u w f params opts b p H e He), Ht.
  - by rewrite (run_outcome E u w f params opts b p H), body_outcome, He.
Qed.

End RunEdges.

Lemma prepare_without_parameters_fails E b w f opts :
  fails (prepare E b w f None opts).
Proof.
  unfold prepare, preparation.
  do 4 (apply fails_bind_r; intros ?). apply fails_bind_l.
  unfold merge_initdata. do 2 (apply fails_bind_r; intros ?). done.
Qed.

(** X7.  Without workflow parameters (the default [None]) the engine is never
    invoked and RUNNING is never published: the states published are none
    at all or FAILED alone.  When the backend was set up and a truthy
    publisher constructed, and no step of the preparation raises anything
    but instances of [Exception], they are FAILED alone and the run returns
    normally. *)
Theorem run_without_parameters_fails E u w f opts :
  engine_calls (trace (run_yadage_workflow E u w f None opts)) = [] /\
  statuses (trace (run_yadage_workflow E u w f None opts)) ∈ [[]; [3]] /\
  (forall b p,
     entered E b p ->
     Publisher.truthy p = true ->
     ~ escapes (prepare E b w f None opts) ->
     statuses (trace (run_yadage_workflow E u w f None opts)) = [3] /\
     outcome (run_yadage_workflow E u w f None opts) = Ok tt).
Proof.
  destruct (run_never_prepared E u w f None opts
              (fun b => prepare_without_parameters_fails E b w f opts)) as [H1 H2].
  split_and!; [done | done |].
  intros b p H Ht Hesc.
  apply (run_failed_in_preparation E u w f None opts b p H Ht); [|done].
  apply prepare_without_parameters_fails.
Qed.

Lemma prepare_missing_key_fails E b w f params opts :
  opts !! "toplevel" = None \/ opts !! "initdir" = None \/ opts !! "initfiles" = None ->
  fails (prepare E b w f params opts).
Proof.
  unfold prepare, preparation, getitem. intros [H | [H | H]]; rewrite H.
  - apply fails_bind_r; intros ex. apply fails_bind_l.
    destruct (negb ex); [done|]. by apply fails_bind_l.
  - do 2 (apply fails_bind_r; intros ?). by apply fails_bind_l.
  - do 3 (apply fails_bind_r; intros ?). by apply fails_bind_l.
Qed.

Lemma prepare_missing_toplevel E b w f params opts :
  os_path_exists E (os_path_join (workspace_path E w) f) = true ->
  opts !! "toplevel" = None ->
  outcome (prepare E b w f params opts) = Raise (Exn "KeyError" "'toplevel'").
Proof.
  intros Hex Ht. unfold prepare, preparation, getitem. rewrite Ht.
  rewrite outcome_bind. cbn [call outcome snd]. rewrite Hex. cbn [negb].
  rewrite outcome_bind. by rewrite outcome_bind.
Qed.

(** X8.  With operational options that lack "toplevel", "initdir" or
    "initfiles" the engine is never invoked and RUNNING is never published:
    the states published are none at all or FAILED alone.  When the backend
    was set up and a truthy publisher constructed, they are FAILED alone
    provided no step of the preparation raises anything but instances of
    [Exception]; and if it is "toplevel" that lacks and the workflow file
    exists, as with the default empty options, the one event published
    carries the missing key, 'toplevel', as its message. *)
Theorem run_with_missing_option_fails E u w f params opts :
  opts !! "toplevel" = None \/ opts !! "initdir" = None \/ opts !! "initfiles" = None ->
  engine_calls (trace (run_yadage_workflow E u w f params opts)) = [] /\
  statuses (trace (run_yadage_workflow E u w f params opts)) ∈ [[]; [3]] /\
  (forall b p,
     entered E b p ->
     Publisher.truthy p = true ->
     (~ escapes (prepare E b w f params opts) ->
      statuses (trace (run_yadage_workflow E u w f params opts)) = [3]) /\
     (os_path_exists E (os_path_join (workspace_path E w) f) = true ->
      opts !! "toplevel" = None ->
      publishes (trace (run_yadage_workflow E u w f params opts)) =
        [(u, 3, Some "workflow failed: 'toplevel'")])).
Proof.
  intros Hmiss.
  destruct (run_never_prepared E u w f params opts
              (fun b => prepare_missing_key_fails E b w f params opts Hmiss)) as [H1 H2].
  split_and!; [done | done |].
  intros b p H Ht. split.
  - intros Hesc.
    apply (run_failed_in_preparation E u w f params opts b p H Ht); [|done].
    by apply prepare_missing_key_fails.
  - intros Hex Htop.
    rewrite (run_publishes_prepare_raises E u w f params opts b p H _
               (prepare_missing_toplevel E b w f params opts Hex Htop)).
    by rewrite Ht.
Qed.

Section EngineAndLoader.
Variable E : Env.
Variables (u w f : string) (params : option dict) (opts : dict).

Lemma call_ok_inv {A} ev (r : result A) (a : A) :
  outcome (call ev r) = Ok a -> r = Ok a.
Proof. done. Qed.

Lemma lift_ok_inv {A} (r : result A) (a : A) : outcome (lift r) = Ok a -> r = Ok a.
Proof. done. Qed.

Lemma getitem_ok_inv (d : dict) k v : getitem d k = Ok v -> d !! k = Some v.
Proof. unfold getitem. destruct (d !! k); [by intros [= ->] | done]. Qed.

Lemma prepare_ok_inv b a :
  outcome (prepare E b w f params opts) = Ok a ->
  os_path_exists E (os_path_join (workspace_path E w) f) = true /\
  (exists toplevel,
     opts !! "toplevel" = Some toplevel /\
     yadageschemas_load E f (loader_arguments f toplevel).1.1.2
       (loader_arguments f toplevel).1.2 true = Ok (workflow_json a)) /\
  opts !! "initdir" = Some (dataopts_initdir a) /\
  (exists files,
     opts !! "initfiles" = Some files /\
     outcome (merge_initdata E files params) = Ok (initdata a)) /\
  check_connection_to_job_controller E = Ok tt /\
  dataarg a = workspace_path E w /\
  backend a = b /\
  visualize a = true /\ updateinterval a = 5 /\ loginterval a = 5.
Proof.
  unfold prepare, preparation. intros H.
  apply bind_ok_inv in H as (ex & Hex & H). apply call_ok_inv in Hex.
  injection Hex as Hex.
  apply bind_ok_inv in H as (wj & Hwj & H).
  apply bind_ok_inv in H as (dir & Hdir & H). apply lift_ok_inv, getitem_ok_inv in Hdir.
  apply bind_ok_inv in H as (files & Hfiles & H).
  apply lift_ok_inv, getitem_ok_inv in Hfiles.
  apply bind_ok_inv in H as (d & Hd & H).
  apply bind_ok_inv in H as ([] & Hconn & H). apply call_ok_inv in Hconn.
  cbn in H. injection H as <-. cbn.
  destruct ex; cbn [negb] in Hwj; [|done].
  apply bind_ok_inv in Hwj as (top & Htop & Hwj).
  apply lift_ok_inv, getitem_ok_inv in Htop. apply call_ok_inv in Hwj.
  split_and!; eauto.
Qed.

(** X9.  The engine is invoked only after the whole preparation: the workflow
    file exists, the schema loader returned the workflow it is given, the
    job controller answered, and the initial data is the merge of the init
    files and the parameters; it is told to work in the run's workspace with
    the backend set up at the start, to visualize, and to update and log
    every 5 seconds. *)
Theorem engine_invoked_only_when_prepared (a : SteeringArgs) :
  a ∈ engine_calls (trace (run_yadage_workflow E u w f params opts)) ->
  os_path_exists E (os_path_join (workspace_path E w) f) = true /\
  (exists toplevel,
     opts !! "toplevel" = Some toplevel /\
     yadageschemas_load E f (loader_arguments f toplevel).1.1.2
       (loader_arguments f toplevel).1.2 true = Ok (workflow_json a)) /\
  opts !! "initdir" = Some (dataopts_initdir a) /\
  (exists files,
     opts !! "initfiles" = Some files /\
     outcome (merge_initdata E files params) = Ok (initdata a)) /\
  check_connection_to_job_controller E = Ok tt /\
  dataarg a = workspace_path E w /\
  setupbackend_fromstring E "fromenv" = Ok (backend a) /\
  visualize a = true /\ updateinterval a = 5 /\ loginterval a = 5.
Proof.
  intros Hin.
  destruct (setupbackend_fromstring E "fromenv") as [b|e|e] eqn:Hb.
  2:{ rewrite (run_backend_fails E u w f params opts e Hb) in Hin.
      by apply elem_of_nil in Hin. }
  2:{ rewrite (run_backend_escapes E u w f params opts e Hb) in Hin.
      by apply elem_of_nil in Hin. }
  destruct (REANAWorkflowStatusPublisher E) as [p|e|e] eqn:Hp.
  2:{ rewrite (run_publisher_fails E u w f params opts b e Hb Hp) in Hin.
      by apply elem_of_nil in Hin. }
  2:{ rewrite (run_publisher_escapes E u w f params opts b e Hb Hp) in Hin.
      by apply elem_of_nil in Hin. }
  rewrite (run_engine_calls E u w f params opts b p (conj Hb Hp)) in Hin.
  destruct (outcome (prepare E b w f params opts)) as [a'| |] eqn:Hprep;
    [|by apply elem_of_nil in Hin|by apply elem_of_nil in Hin].
  apply list_elem_of_singleton in Hin as ->.
  destruct (prepare_ok_inv b a' Hprep)
    as (H1 & H2 & H3 & H4 & H5 & H6 & H7 & H8 & H9 & H10).
  split_and!; try done. by rewrite H7.
Qed.

(** X10.  The states a run publishes, and for whom: the sequence of numeric states
    is one of [], [1], [3], [1, 3] and [1, 2] -- RUNNING at most once and
    first, at most one terminal state and last -- and every event carries
    the identifier of the run. *)
Theorem status_sequence_is_monotonic :
  statuses (trace (run_yadage_workflow E u w f params opts))
    ∈ [[]; [1]; [3]; [1; 3]; [1; 2]] /\
  Forall (fun ev => ev.1.1 = u)
         (publishes (trace (run_yadage_workflow E u w f params opts))).
Proof.
  destruct (setupbackend_fromstring E "fromenv") as [b|e|e] eqn:Hb.
  2:{ rewrite (run_backend_fails E u w f params opts e Hb).
      split; [apply list_elem_of_here | constructor]. }
  2:{ rewrite (run_backend_escapes E u w f params opts e Hb).
      split; [apply list_elem_of_here | constructor]. }
  destruct (REANAWorkflowStatusPublisher E) as [p|e|e] eqn:Hp.
  2:{ rewrite (run_publisher_fails E u w f params opts b e Hb Hp).
      split; [apply list_elem_of_here | constructor]. }
  2:{ rewrite (run_publisher_escapes E u w f params opts b e Hb Hp).
      split; [apply list_elem_of_here | constructor]. }
  unfold statuses.
  destruct (outcome (prepare E b w f params opts)) as [a|e|k] eqn:Hprep.
  3:{ rewrite (run_publishes_prepare_escapes E u w f params opts b p (conj Hb Hp) k Hprep).
      split; [apply list_elem_of_here | constructor]. }
  - rewrite (run_publishes_prepared E u w f params opts b p (conj Hb Hp) a Hprep).
    destruct (steering_ctx E a), (adage_argument E u), (steering_ctx_exit E),
      (Publisher.truthy p); cbn;
      (split; [set_solver | repeat constructor]).
  - rewrite (run_publishes_prepare_raises E u w f params opts b p (conj Hb Hp) e Hprep).
    destruct (Publisher.truthy p); cbn; (split; [set_solver | repeat constructor]).
Qed.

(** X11.  With a publisher object that is falsy, a failure in the guarded region
    is not published: the handler logs the error and that the status could
    not be published, and the run returns normally. *)
Theorem falsy_publisher_fallback b p e :
  entered E b p ->
  Publisher.truthy p = false ->
  outcome (body E p b u w f params opts) = Raise e ->
  terminal_publishes (trace (run_yadage_workflow E u w f params opts)) = [] /\
  (exists before,
     error_logs (trace (run_yadage_workflow E u w f params opts)) =
     (before ++ [ "Workflow failed: " +:+ exn_str e;
                  "Workflow " +:+ u +:+ " failed but status could not be published." ])%list) /\
  outcome (run_yadage_workflow E u w f params opts) = Ok tt.
Proof.
  intros H Ht He. split_and!.
  - unfold terminal_publishes.
    rewrite (run_publishes E u w f params opts b p H), He, Ht, app_nil_r.
    rewrite body_publishes. rewrite body_outcome in He.
    destruct (outcome (prepare E b w f params opts)) as [a| |]; [|done|done].
    rewrite execution_publishes. unfold engine_outcome in He.
    destruct (steering_ctx E a) as [[]| |]; [|done|done]. cbn [mbind result_bind] in *.
    destruct (adage_argument E u) as [[]| |]; [|done|done]. cbn [mbind result_bind] in *.
    by destruct (steering_ctx_exit E) as [[]| |].
  - rewrite (run_entered E u w f params opts b p H). cbn [trace fst].
    rewrite error_logs_app, trace_try_except, error_logs_app, He.
    rewrite (fallback_logs_and_returns u p e Ht). cbn [trace fst].
    eexists. rewrite app_assoc. reflexivity.
  - by rewrite (run_outcome E u w f params opts b p H), He.
Qed.

End EngineAndLoader.

(** ** The schema loader and the init files *)

Section LoaderAndFiles.
Variable E : Env.

Lemma load_initfiles_no_loader files acc :
  loader_events (trace (load_initfiles E files acc)) = [].
Proof.
  revert acc. induction files as [|file files IH]; intros acc; [done|].
  cbn [load_initfiles]. rewrite trace_bind, loader_events_app. cbn [call trace outcome fst snd].
  destruct (yaml_safe_load_open E file) as [doc| |]; [|done|done].
  rewrite trace_bind, loader_events_app. cbn [lift trace outcome fst snd].
  destruct (kwargs doc); [apply IH | done | done].
Qed.

Lemma merge_initdata_no_loader v params :
  loader_events (trace (merge_initdata E v params)) = [].
Proof.
  unfold merge_initdata. rewrite trace_bind, loader_events_app. cbn [lift trace outcome fst snd].
  destruct (py_iter v) as [files| |]; [|done|done].
  rewrite trace_bind, loader_events_app, load_initfiles_no_loader.
  by destruct (outcome (load_initfiles E files ∅)).
Qed.

Lemma prepare_loader_events b w f params opts :
  loader_events (trace (prepare E b w f params opts)) =
  if os_path_exists E (os_path_join (workspace_path E w) f) then
    match opts !! "toplevel" with
    | Some toplevel => [loader_arguments f toplevel]
    | None => []
    end
  else [].
Proof.
  unfold prepare, preparation, getitem.
  rewrite trace_bind, loader_events_app. cbn [call trace outcome fst snd].
  destruct (os_path_exists E _); cbn [negb]; [|by rewrite trace_bind].
  rewrite trace_bind, loader_events_app.
  rewrite (trace_bind (lift _)), (outcome_bind (lift _)), loader_events_app.
  cbn [lift trace outcome fst snd].
  destruct (opts !! "toplevel") as [toplevel|]; [|done].
  cbn [call trace outcome fst snd]. unfold loader_arguments.
  cbn [loader_events omap list_omap app]. f_equal.
  destruct (yadageschemas_load E f _ _ true) as [wj| |]; [|done|done].
  rewrite trace_bind, loader_events_app. cbn [lift trace outcome fst snd].
  destruct (opts !! "initdir"); [|done].
  rewrite trace_bind, loader_events_app. cbn [lift trace outcome fst snd].
  destruct (opts !! "initfiles") as [v|]; [|done].
  rewrite trace_bind, loader_events_app, merge_initdata_no_loader.
  destruct (outcome (merge_initdata E v params)); [|done|done].
  rewrite trace_bind. cbn [call trace outcome fst snd].
  by destruct (check_connection_to_job_controller E).
Qed.

Lemma execution_loader_events p u ws a :
  loader_events (trace (execution E p u ws a)) = [].
Proof. engine_cases E p u a. Qed.

Lemma handler_loader_events p u e :
  loader_events (trace (failure_handler p u e)) = [].
Proof. handler_cases p. Qed.

(** X12.  The schema loader is called at most once in a run, and only for a
    workflow file that exists: it is given the workflow file as the caller
    named it (not its absolute path), the toplevel of the operational
    options, the schema "yadage/workflow-schema" without a schema directory,
    no loading as reference, and a request to validate. *)
Theorem loader_called_once_with_given_file u w f params opts :
  loader_events (trace (run_yadage_workflow E u w f params opts)) = [] \/
  (os_path_exists E (os_path_join (workspace_path E w) f) = true /\
   exists toplevel,
     opts !! "toplevel" = Some toplevel /\
     loader_events (trace (run_yadage_workflow E u w f params opts)) =
       [loader_arguments f toplevel]).
Proof.
  destruct (setupbackend_fromstring E "fromenv") as [b|e|e] eqn:Hb.
  2:{ left. by rewrite (run_backend_fails E u w f params opts e Hb). }
  2:{ left. by rewrite (run_backend_escapes E u w f params opts e Hb). }
  destruct (REANAWorkflowStatusPublisher E) as [p|e|e] eqn:Hp.
  2:{ left. by rewrite (run_publisher_fails E u w f params opts b e Hb Hp). }
  2:{ left. by rewrite (run_publisher_escapes E u w f params opts b e Hb Hp). }
  assert (loader_events (trace (run_yadage_workflow E u w f params opts)) =
          loader_events (trace (prepare E b w f params opts))) as ->.
  { rewrite (run_entered E u w f params opts b p (conj Hb Hp)). cbn [trace fst].
    rewrite loader_events_app, trace_try_except, loader_events_app.
    change (loader_events (prelude E u w)) with (@nil (string * SpecOpts * ValidOpts * bool)).
    rewrite app_nil_l.
    assert (loader_events
              match outcome (body E p b u w f params opts) with
              | Raise e => trace (failure_handler p u e)
              | _ => []
              end = []) as ->.
    { destruct (outcome (body E p b u w f params opts)); [done| |done].
      apply handler_loader_events. }
    rewrite app_nil_r. unfold body, guarded_body.
    rewrite trace_bind, loader_events_app. fold (prepare E b w f params opts).
    destruct (outcome (prepare E b w f params opts));
      [rewrite execution_loader_events| |]; by rewrite app_nil_r. }
  rewrite prepare_loader_events.
  destruct (os_path_exists E _); [|by left].
  destruct (opts !! "toplevel") as [toplevel|]; [|by left].
  right. eauto.
Qed.

Lemma opened_app t1 t2 : opened (t1 ++ t2) = (opened t1 ++ opened t2)%list.
Proof. apply omap_app. Qed.

Lemma load_initfiles_opened files acc :
  opened (trace (load_initfiles E files acc)) = upto_first_failure E files.
Proof.
  revert acc. induction files as [|file files IH]; intros acc; [done|].
  cbn [load_initfiles upto_first_failure]. unfold loadable.
  rewrite trace_bind, opened_app. cbn [call trace outcome fst snd].
  change (opened [EvOpen file]) with [file]. cbn [app]. f_equal.
  destruct (yaml_safe_load_open E file) as [doc| |]; [|done|done].
  rewrite trace_bind, opened_app. cbn [lift trace outcome fst snd mbind result_bind].
  destruct (kwargs doc); [apply IH | done | done].
Qed.

Lemma upto_first_failure_prefix files : upto_first_failure E files `prefix_of` files.
Proof.
  induction files as [|file files IH]; [done|]. cbn [upto_first_failure].
  apply prefix_cons. destruct (loadable E file); [done | apply prefix_nil].
Qed.

Lemma upto_first_failure_all files :
  forallb (loadable E) files = true -> upto_first_failure E files = files.
Proof.
  induction files as [|file files IH]; [done|]. cbn [forallb upto_first_failure].
  intros [-> H]%andb_true_iff. by rewrite IH.
Qed.

(** X13.  The init files are opened in the order of the list, and the loop stops
    at the first one that does not load: the files opened are those up to
    and including it, a prefix of the list, and the whole list when all of
    them load. *)
Theorem initfiles_opened_in_order_until_failure v files params :
  py_iter v = Ok files ->
  opened (trace (merge_initdata E v params)) = upto_first_failure E files /\
  opened (trace (merge_initdata E v params)) `prefix_of` files /\
  (forallb (loadable E) files = true ->
   opened (trace (merge_initdata E v params)) = files).
Proof.
  intros Hit.
  assert (opened (trace (merge_initdata E v params)) = upto_first_failure E files) as ->.
  { unfold merge_initdata. rewrite Hit.
    rewrite trace_bind, opened_app. cbn [lift trace outcome fst snd app].
    rewrite trace_bind, opened_app, load_initfiles_opened.
    destruct (outcome (load_initfiles E files ∅)); cbn [lift trace fst];
      by rewrite app_nil_r. }
  split_and!; [done | apply upto_first_failure_prefix | apply upto_first_failure_all].
Qed.

Lemma merge_initdata_loaded (files : list json) (contents : list dict) (parameters : dict) :
  Forall2 (fun file m => yaml_safe_load_open E file = Ok (YMapping m)) files contents ->
  outcome (merge_initdata E (JList files) (Some parameters)) =
  Ok (overlay contents parameters).
Proof.
  intros H. unfold merge_initdata. cbn [py_iter lift mbind M_bind].
  rewrite (load_initfiles_loaded E files contents ∅ H).
  cbn [update_with_parameters mbind M_bind lift app outcome snd]. f_equal.
  unfold dict_update at 1, overlay. rewrite foldl_dict_update.
  by rewrite (right_id_L ∅ (∪)).
Qed.

Lemma overlay_files_provenance contents k v :
  overlay_files contents !! k = Some v ->
  exists m, m ∈ contents /\ m !! k = Some v.
Proof.
  induction contents as [|m rest IH]; cbn [overlay_files].
  - by rewrite lookup_empty.
  - intros [H | [_ H]]%lookup_union_Some_raw.
    + destruct (IH H) as (m' & Hin & Hm'). exists m'. split; [by right | done].
    + exists m. split; [by left | done].
Qed.

Lemma overlay_files_dom contents :
  dom (overlay_files contents) = ⋃ (dom <$> contents).
Proof.
  induction contents as [|m rest IH]; cbn [overlay_files].
  - by rewrite dom_empty_L.
  - rewrite dom_union_L, IH, fmap_cons. cbn [union_list foldr]. apply (comm_L (∪)).
Qed.

(** X14.  The merge neither loses nor invents anything: the keys of the initial
    data are the keys of the parameters together with those of the files,
    and each value is the one some source gives to its key. *)
Theorem initdata_keys_and_values_from_sources
    (files : list json) (contents : list dict) (parameters : dict) :
  Forall2 (fun file m => yaml_safe_load_open E file = Ok (YMapping m)) files contents ->
  exists d,
    outcome (merge_initdata E (JList files) (Some parameters)) = Ok d /\
    dom d = dom parameters ∪ ⋃ (dom <$> contents) /\
    (forall k v, d !! k = Some v ->
       parameters !! k = Some v \/ exists m, m ∈ contents /\ m !! k = Some v).
Proof.
  intros H. exists (overlay contents parameters). split_and!.
  - by apply merge_initdata_loaded.
  - unfold overlay. by rewrite dom_union_L, overlay_files_dom.
  - unfold overlay. intros k v [Hp | [_ Hf]]%lookup_union_Some_raw; [by left|].
    right. by apply overlay_files_provenance.
Qed.

End LoaderAndFiles.

(** ** The sample installation, further *)

Lemma resolve_result_shape_witness :
  contains raw_options_resolved "accept_metadir" = contains Sample.raw_options "accept_metadir" /\
  exists (t d : string) (fs : list string),
    raw_options_resolved !! "toplevel" = Some (JStr t) /\
    raw_options_resolved !! "initdir" = Some (JStr d) /\
    raw_options_resolved !! "initfiles" = Some (JStrs fs).
Proof.
  destruct (resolve_result_shape "/var/reana" (Some "ws") Sample.raw_options
              raw_options_resolved ltac:(vm_compute; reflexivity))
    as ((t & d & fs & Ht & Hd & Hf & _) & _ & Hacc).
  split; [exact Hacc|]. exists t, d, fs. split_and!; assumption.
Defined.

Lemma resolve_string_initfiles_witness :
  (exists o',
     resolve_operational_options "/var/reana" (Some "ws") string_options = Ok o' /\
     o' !! "initfiles" = Some (JStrs ["/var/reana/ws/a"; "/var/reana/ws/b"])) /\
  (exists o',
     resolve_operational_options "/var/reana" (Some "ws") euro_options = Ok o' /\
     o' !! "initfiles" =
       Some (JStrs ["/var/reana/ws/" +:+ euro_sign; "/"; "/var/reana/ws/a"])).
Proof.
  split.
  - apply (resolve_string_initfiles "/var/reana" (Some "ws") string_options "ab");
      reflexivity.
  - apply (resolve_string_initfiles "/var/reana" (Some "ws") euro_options
             (euro_sign +:+ "/a")); reflexivity.
Defined.

Lemma resolve_keeps_or_prefixes_witness :
  exists (t' d' : string) (fs' : list string) (o' : dict),
    resolve_operational_options "/var/reana" (Some "ws") mixed_options = Ok o' /\
    o' !! "toplevel" = Some (JStr t') /\
    o' !! "initdir" = Some (JStr d') /\
    o' !! "initfiles" = Some (JStrs fs') /\
    startswith t' "/var/reana/ws" = true /\
    d' = "/data/inputs" /\
    Forall2 (fun f f' => if absolute f then f' = f
                         else startswith f' "/var/reana/ws" = true)
            ["a.yaml"; "/etc/b.yaml"] fs'.
Proof.
  exact (resolve_keeps_or_prefixes "/var/reana" (Some "ws") mixed_options
           (Some "specs") (Some "/data/inputs") (Some ["a.yaml"; "/etc/b.yaml"])
           eq_refl eq_refl eq_refl).
Defined.

Lemma errors_before_guard_escape_witness :
  outcome (run_yadage_workflow Sample.env_no_backend "uuid" "ws" "workflow.yml"
             (Some Sample.parameters) Sample.options) =
    Raise (Exn "ValueError" "unknown backend") /\
  publishes (trace (run_yadage_workflow Sample.env_no_backend "uuid" "ws" "workflow.yml"
                      (Some Sample.parameters) Sample.options)) = [].
Proof.
  destruct (errors_before_guard_escape Sample.env_no_backend "uuid" "ws" "workflow.yml"
              (Some Sample.parameters) Sample.options
              (Exn "ValueError" "unknown backend") (or_introl eq_refl))
    as (H1 & H2 & _).
  split; [exact H1 | exact H2].
Defined.

Lemma no_parameters_prepare :
  outcome (prepare Sample.env (BackendHandle 0) "ws" "workflow.yml" None Sample.options) =
  Raise (Exn "TypeError" "'NoneType' object is not iterable").
Proof. vm_compute. reflexivity. Qed.

Lemma run_without_parameters_fails_witness :
  statuses (trace (run_yadage_workflow Sample.env "uuid" "ws" "workflow.yml"
                     None Sample.options)) = [3] /\
  engine_calls (trace (run_yadage_workflow Sample.env "uuid" "ws" "workflow.yml"
                         None Sample.options)) = [].
Proof.
  destruct (run_without_parameters_fails Sample.env "uuid" "ws" "workflow.yml"
              Sample.options) as (H1 & _ & H3).
  split; [|exact H1].
  exact (proj1 (H3 (BackendHandle 0) Sample.publisher sample_entered eq_refl
                  (raise_not_escapes _ _ no_parameters_prepare))).
Defined.

Lemma no_options_prepare :
  outcome (prepare Sample.env (BackendHandle 0) "ws" "workflow.yml"
             (Some Sample.parameters) ∅) = Raise (Exn "KeyError" "'toplevel'").
Proof. vm_compute. reflexivity. Qed.

Lemma run_with_missing_option_fails_witness :
  statuses (trace (run_yadage_workflow Sample.env "uuid" "ws" "workflow.yml"
                     (Some Sample.parameters) ∅)) = [3] /\
  publishes (trace (run_yadage_workflow Sample.env "uuid" "ws" "workflow.yml"
                      (Some Sample.parameters) ∅)) =
    [("uuid", 3, Some "workflow failed: 'toplevel'")].
Proof.
  destruct (run_with_missing_option_fails Sample.env "uuid" "ws" "workflow.yml"
              (Some Sample.parameters) ∅ ltac:(left; reflexivity))
    as (_ & _ & H3).
  destruct (H3 (BackendHandle 0) Sample.publisher sample_entered eq_refl) as [Ha Hb].
  split; [exact (Ha (raise_not_escapes _ _ no_options_prepare))
         | exact (Hb eq_refl eq_refl)].
Defined.

Lemma sample_engine_call :
  Sample.args ∈ engine_calls
    (trace (run_yadage_workflow Sample.env "uuid" "ws" "workflow.yml"
              (Some Sample.parameters) Sample.options)).
Proof. vm_compute. apply list_elem_of_here. Qed.

Lemma engine_invoked_only_when_prepared_witness :
  os_path_exists Sample.env "/var/reana/ws/workflow.yml" = true /\
  check_connection_to_job_controller Sample.env = Ok tt /\
  dataarg Sample.args = "/var/reana/ws" /\
  outcome (merge_initdata Sample.env (JStrs ["a.yaml"; "b.yaml"])
             (Some Sample.parameters)) = Ok (initdata Sample.args).
Proof.
  destruct (engine_invoked_only_when_prepared Sample.env "uuid" "ws" "workflow.yml"
              (Some Sample.parameters) Sample.options Sample.args sample_engine_call)
    as (H1 & _ & _ & (files & Hfiles & Hmerge) & H5 & H6 & _).
  split_and!; [exact H1 | exact H5 | exact H6 |].
  injection Hfiles as <-. exact Hmerge.
Defined.

Lemma falsy_entered : entered falsy_env (BackendHandle 0) falsy_publisher.
Proof. by split. Qed.

Lemma falsy_body_fails :
  outcome (body falsy_env falsy_publisher (BackendHandle 0) "uuid" "ws" "missing.yml"
             (Some Sample.parameters) Sample.options) =
  Raise (Exn "Exception" "Workflow file missing.yml does not exist").
Proof. vm_compute. reflexivity. Qed.

Lemma falsy_publisher_fallback_witness :
  terminal_publishes
    (trace (run_yadage_workflow falsy_env "uuid" "ws" "missing.yml"
              (Some Sample.parameters) Sample.options)) = [] /\
  outcome (run_yadage_workflow falsy_env "uuid" "ws" "missing.yml"
             (Some Sample.parameters) Sample.options) = Ok tt.
Proof.
  destruct (falsy_publisher_fallback falsy_env "uuid" "ws" "missing.yml"
              (Some Sample.parameters) Sample.options (BackendHandle 0) falsy_publisher
              (Exn "Exception" "Workflow file missing.yml does not exist")
              falsy_entered eq_refl falsy_body_fails)
    as (H1 & _ & H3).
  split; [exact H1 | exact H3].
Defined.

Lemma initfiles_opened_in_order_until_failure_witness :
  opened (trace (merge_initdata Sample.env
                   (JStrs ["a.yaml"; "missing.yaml"; "b.yaml"])
                   (Some Sample.parameters))) =
  [JStr "a.yaml"; JStr "missing.yaml"].
Proof.
  destruct (initfiles_opened_in_order_until_failure Sample.env
              (JStrs ["a.yaml"; "missing.yaml"; "b.yaml"])
              [JStr "a.yaml"; JStr "missing.yaml"; JStr "b.yaml"]
              (Some Sample.parameters) eq_refl) as (H & _).
  etrans; [exact H | reflexivity].
Defined.

Lemma initdata_keys_and_values_from_sources_witness :
  exists d,
    outcome (merge_initdata Sample.env (JList [JStr "a.yaml"; JStr "b.yaml"])
               (Some Sample.parameters)) = Ok d /\
    dom d = dom Sample.parameters ∪ ⋃ (dom <$> [Sample.a_yaml; Sample.b_yaml]).
Proof.
  destruct (initdata_keys_and_values_from_sources Sample.env
              [JStr "a.yaml"; JStr "b.yaml"] [Sample.a_yaml; Sample.b_yaml]
              Sample.parameters) as (d & Hd & Hdom & _).
  { repeat constructor. }
  exists d. split; [exact Hd | exact Hdom].
Defined.

Lemma resolve_idempotent_witness :
  resolve_operational_options "/var/reana" (Some "ws") raw_options_resolved =
  Ok raw_options_resolved.
Proof.
  apply (resolve_idempotent "/var/reana" (Some "ws") Sample.raw_options
           raw_options_resolved (Some "github:org/repo") (Some "inputs")
           (Some ["a.yaml"; "b.yaml"]));
    first [reflexivity | by left | vm_compute; reflexivity].
Defined.

